(** * Parkest: the parking capacity estimator

    A shallow embedding of [backend/parking_time_estimators/estimator.py]
    and the properties its specification states about it.

    The estimator trains a scikit-learn pipeline (one-hot encoder for
    [day_type], numeric passthrough, random forest regressor) once, at
    construction, and then answers two queries: [predict] (occupancy rate)
    and [predict_search_time] (a heuristic conversion of that rate into a
    search time).

    Numbers.  Python's [float] is read through an interface, [PyFloat],
    with two instances: [binary64] (IEEE 754 double precision, the
    arithmetic the interpreter runs, executable with [vm_compute]) and
    [real] (exact arithmetic over [R], the arithmetic in which the
    specification writes its formulas).  Every definition of the program
    is written once, over the interface.  Properties of the control flow
    are proved for every instance.  Bounds on the search time are proved
    in the [real] instance and are stated so that rounding keeps them: no
    strict bound and no exact value where a double can differ; the
    scenarios and the ends of the ranges are evaluated in [binary64] as
    well.  The properties of the hour encoding are proved in [binary64],
    for every sine and cosine that is accurate at the arguments in
    question.

    Libraries.  pandas and scikit-learn are not part of the repository.
    Their behaviour is modelled as far as the program depends on it: column
    lookup and element-wise arithmetic on a data frame, the one-hot encoder
    with its [handle_unknown] option, the column order of the transformer,
    and the validation of the rows that the forest predicts on.  The forest
    learner itself is a parameter, [forest_fit]. *)

From Stdlib Require Import ZArith QArith Reals Qreals Machin Lra Lia Floats String.
From stdpp Require Import base strings gmap list.

Close Scope Q_scope.

Set Warnings "-inexact-float".

(** ** Python floats *)

Declare Scope py_scope.
Delimit Scope py_scope with py.

(** The operations and literals of [float] that the program uses.  [of_int]
    is the promotion of an [int] operand in mixed arithmetic. *)
Class PyFloat (F : Type) := {
  of_int : Z → F;
  fadd : F → F → F;
  fsub : F → F → F;
  fmul : F → F → F;
  fdiv : F → F → F;
  flt : F → F → bool;
  isfinite : F → bool;
  lit_1e_3 : F;
  lit_0_05 : F;
  lit_1_2 : F;
  lit_2_5 : F
}.

(** The part of numpy the program uses: [np.pi], [np.sin], [np.cos]. *)
Class NumPy (F : Type) := {
  np_pi : F;
  np_sin : F → F;
  np_cos : F → F
}.

Notation "a + b" := (fadd a b) : py_scope.
Notation "a - b" := (fsub a b) : py_scope.
Notation "a * b" := (fmul a b) : py_scope.
Notation "a / b" := (fdiv a b) : py_scope.
Notation "a <? b" := (flt a b) : py_scope.

(** IEEE 754 binary64.  An integer is rounded to the nearest double. *)
Definition float_of_Z (z : Z) : float :=
  SF2Prim (binary_normalize prec emax z 0 false).

#[export] Instance binary64 : PyFloat float := {|
  of_int := float_of_Z;
  fadd := PrimFloat.add;
  fsub := PrimFloat.sub;
  fmul := PrimFloat.mul;
  fdiv := PrimFloat.div;
  flt := PrimFloat.ltb;
  isfinite := PrimFloat.is_finite;
  lit_1e_3 := 1e-3%float;
  lit_0_05 := 0.05%float;
  lit_1_2 := 1.2%float;
  lit_2_5 := 2.5%float
|}.

(** Exact arithmetic: the arithmetic of the specification's formulas, not
    that of the interpreter.  Every real number is finite. *)
Definition Rltb (a b : R) : bool := if Rlt_dec a b then true else false.

#[export] Instance real : PyFloat R := {|
  of_int := IZR;
  fadd := Rplus;
  fsub := Rminus;
  fmul := Rmult;
  fdiv := Rdiv;
  flt := Rltb;
  isfinite := λ _, true;
  lit_1e_3 := 1e-3%R;
  lit_0_05 := 0.05%R;
  lit_1_2 := 1.2%R;
  lit_2_5 := 2.5%R
|}.

(** numpy over binary64: [np.pi] is the double nearest to pi; its sine
    and cosine are those of the platform's mathematical library, which is
    not modelled and is taken as a parameter. *)
Definition binary64_numpy (libm_sin libm_cos : float → float) : NumPy float := {|
  np_pi := 3.141592653589793%float;
  np_sin := libm_sin;
  np_cos := libm_cos
|}.

(** numpy in exact arithmetic: pi, the sine and the cosine themselves. *)
#[export] Instance real_numpy : NumPy R := {|
  np_pi := PI;
  np_sin := sin;
  np_cos := cos
|}.

(** ** Exceptions *)

Inductive exn :=
  | FileNotFoundError (path : string)
  | KeyError (key : string)
  | TypeError
  | ValueError
  | IndexError
  | AttributeError
  | NotFittedError.

Inductive result (A : Type) :=
  | Ok (a : A)
  | Raise (e : exn).
Arguments Ok {A} a.
Arguments Raise {A} e.

Definition rbind {A B} (r : result A) (k : A → result B) : result B :=
  match r with
  | Ok a => k a
  | Raise e => Raise e
  end.

Notation "'let!' x ':=' c 'in' k" := (rbind c (λ x, k))
  (at level 10, x name, c at level 100, k at level 200).

(** The error classes of the specification.  Python has no
    [DataShapeError]: the pandas and scikit-learn layer reports an absent
    column as [KeyError] and an empty or non-numeric table as [ValueError]
    or [TypeError]. *)
Inductive ErrorClass := FileAccessError | DataShapeError | OtherError.

Definition error_class (e : exn) : ErrorClass :=
  match e with
  | FileNotFoundError _ => FileAccessError
  | KeyError _ | ValueError | TypeError => DataShapeError
  | IndexError | AttributeError | NotFittedError => OtherError
  end.

Fixpoint rmapM {A B} (f : A → result B) (l : list A) : result (list B) :=
  match l with
  | [] => Ok []
  | a :: l' => let! b := f a in let! bs := rmapM f l' in Ok (b :: bs)
  end.

(** A method call on an object of state [S]: it returns or raises, and
    leaves the object in a state (the state survives an exception). *)
Definition Method (S A : Type) : Type := S → result A * S.

Definition mbind {S A B} (m : Method S A) (k : A → Method S B) : Method S B :=
  λ self,
    match m self with
    | (Ok a, self') => k a self'
    | (Raise e, self') => (Raise e, self')
    end.

Definition mret {S A} (a : A) : Method S A := λ self, (Ok a, self).

(** Evaluation of an expression that reads [self] and may raise. *)
Definition mread {S A} (f : S → result A) : Method S A := λ self, (f self, self).

Notation "'call!' x ':=' c 'in' k" := (mbind c (λ x, k))
  (at level 10, x name, c at level 100, k at level 200).

(** ** pandas and scikit-learn, as far as the estimator uses them *)

Section Libraries.
Context {F : Type} {py : PyFloat F}.
Local Open Scope py_scope.

(** A column of a data frame: [float64] numbers or [object] strings. *)
Inductive Series :=
  | Float64 (xs : list F)
  | Object (xs : list string).

Definition series_len (s : Series) : nat :=
  match s with
  | Float64 xs => length xs
  | Object xs => length xs
  end.

(** [df[key]]. *)
Definition getitem (df : gmap string Series) (key : string) : result Series :=
  match df !! key with
  | Some s => Ok s
  | None => Raise (KeyError key)
  end.

(** [df[keys]]: the sub-frame of the listed columns. *)
Fixpoint getitems (df : gmap string Series) (keys : list string)
  : result (gmap string Series) :=
  match keys with
  | [] => Ok ∅
  | k :: ks =>
      let! s := getitem df k in
      let! rest := getitems df ks in
      Ok (<[k := s]> rest)
  end.

(** Element-wise float arithmetic on a column; a string element has no
    such arithmetic. *)
Definition series_map (f : F → F) (s : Series) : result Series :=
  match s with
  | Float64 xs => Ok (Float64 (f <$> xs))
  | Object [] => Ok (Object [])
  | Object (_ :: _) => Raise TypeError
  end.

(** Conversion of a column to a float array, as the regressor does. *)
Definition to_float64 (s : Series) : result (list F) :=
  match s with
  | Float64 xs => Ok xs
  | Object [] => Ok []
  | Object (_ :: _) => Raise ValueError
  end.

(** [pd.read_csv]: the file system maps a path to the parsed table. *)
Definition read_csv (fs : gmap string (gmap string Series)) (path : string)
  : result (gmap string Series) :=
  match fs !! path with
  | Some df => Ok df
  | None => Raise (FileNotFoundError path)
  end.

(** [np.unique]: the sorted distinct values. *)
Fixpoint insert_unique {A} (lt : A → A → bool) (x : A) (l : list A) : list A :=
  match l with
  | [] => [x]
  | y :: l' =>
      if lt x y then x :: y :: l'
      else if lt y x then y :: insert_unique lt x l'
      else y :: l'
  end.

Definition np_unique {A} (lt : A → A → bool) (l : list A) : list A :=
  foldr (insert_unique lt) [] l.

Definition feqb (x y : F) : bool := negb (x <? y) && negb (y <? x).

(** *** OneHotEncoder *)

Inductive HandleUnknown := hu_error | hu_ignore.

Record OneHotEncoder := {
  handle_unknown : HandleUnknown;
  categories_ : option Series
}.

(** The vocabulary of a column: its distinct values, sorted. *)
Definition series_unique (col : Series) : Series :=
  match col with
  | Float64 xs => Float64 (np_unique flt xs)
  | Object xs => Object (np_unique String.ltb xs)
  end.

(** Fitting needs at least one sample. *)
Definition ohe_fit (enc : OneHotEncoder) (col : Series) : result OneHotEncoder :=
  if Nat.eqb (series_len col) 0 then Raise ValueError
  else
    Ok {| handle_unknown := handle_unknown enc;
          categories_ := Some (series_unique col) |}.

(** The indicator row of one value; a value outside the vocabulary is an
    error or the all-zero row, by [handle_unknown]. *)
Definition ohe_row {A} (hu : HandleUnknown) (eqb : A → A → bool)
    (cats : list A) (v : A) : result (list F) :=
  let row := (λ c, if eqb c v then of_int 1 else of_int 0) <$> cats in
  if existsb (λ c, eqb c v) cats then Ok row
  else
    match hu with
    | hu_error => Raise ValueError
    | hu_ignore => Ok row
    end.

Definition ohe_unknown (hu : HandleUnknown) (width : nat) : result (list F) :=
  match hu with
  | hu_error => Raise ValueError
  | hu_ignore => Ok (replicate width (of_int 0))
  end.

(** The rows of a column.  A numeric column against a vocabulary of
    strings raises [TypeError]: the encoder tests the vocabulary for NaN
    with [np.isnan], which refuses an array of strings.  A column of
    strings against a numeric vocabulary has unknown values only. *)
Definition ohe_transform (enc : OneHotEncoder) (col : Series)
  : result (list (list F)) :=
  match categories_ enc with
  | None => Raise NotFittedError
  | Some cats =>
      let hu := handle_unknown enc in
      match cats, col with
      | Object cs, Object vs => rmapM (ohe_row hu String.eqb cs) vs
      | Float64 cs, Float64 vs => rmapM (ohe_row hu feqb cs) vs
      | Object cs, Float64 vs => rmapM (λ _, Raise TypeError) vs
      | Float64 cs, Object vs => rmapM (λ _, ohe_unknown hu (length cs)) vs
      end
  end.

(** *** ColumnTransformer: one encoded column, then passthrough columns *)

Record ColumnTransformer := {
  cat_encoder : OneHotEncoder;
  cat_column : string;
  num_columns : list string
}.

(** The rows of a list of columns of [n] entries each. *)
Definition rows_of (n : nat) (cols : list (list F)) : list (list F) :=
  foldr (zip_with cons) (replicate n []) cols.

Definition ct_transform (ct : ColumnTransformer) (X : gmap string Series)
  : result (list (list F)) :=
  let! col := getitem X (cat_column ct) in
  let! nums := rmapM (λ c, let! s := getitem X c in to_float64 s) (num_columns ct) in
  let! onehot := ohe_transform (cat_encoder ct) col in
  Ok (zip_with app onehot (rows_of (series_len col) nums)).

Definition ct_fit (ct : ColumnTransformer) (X : gmap string Series)
  : result ColumnTransformer :=
  let! col := getitem X (cat_column ct) in
  let! enc := ohe_fit (cat_encoder ct) col in
  Ok {| cat_encoder := enc; cat_column := cat_column ct;
        num_columns := num_columns ct |}.

(** *** RandomForestRegressor *)

Record RandomForestRegressor := {
  n_estimators : nat;
  max_depth : nat;
  random_state : option Z;
  estimators_ : option (list F → F)
}.

(** The learner: from the hyper-parameters, the seed of its random
    number generator, the design matrix and the targets, it returns the
    fitted ensemble as the function that maps a row to its prediction,
    or raises. *)
Variable forest_fit :
  nat → nat → Z → list (list F) → list F → result (list F → F).

(** With [random_state=None] the seed is drawn from the process's
    entropy; with an integer it is that integer. *)
Definition rf_fit (entropy : Z) (rf : RandomForestRegressor)
    (X : list (list F)) (y : list F) : result RandomForestRegressor :=
  let seed := default entropy (random_state rf) in
  let! f := forest_fit (n_estimators rf) (max_depth rf) seed X y in
  Ok {| n_estimators := n_estimators rf; max_depth := max_depth rf;
        random_state := random_state rf; estimators_ := Some f |}.

(** The forest converts the matrix it predicts on to float32 and refuses
    it, with a [ValueError], if an entry is a NaN, an infinity or a value
    that overflows float32.  A double overflows float32 when its
    magnitude reaches [2^128 - 2^103], halfway between the largest float32
    and [2^128]. *)
Definition float32_bound : Z := 2 ^ 128 - 2 ^ 103.

Definition fits_float32 (x : F) : bool :=
  (x <? of_int float32_bound) && (of_int (- float32_bound) <? x).

Definition rf_predict (rf : RandomForestRegressor) (X : list (list F))
  : result (list F) :=
  match estimators_ rf with
  | None => Raise NotFittedError
  | Some f =>
      if forallb (forallb fits_float32) X then Ok (f <$> X)
      else Raise ValueError
  end.

(** *** Pipeline of the two steps *)

Record Pipeline := {
  step_preprocessor : ColumnTransformer;
  step_regressor : RandomForestRegressor
}.

Definition pipeline_fit (entropy : Z) (p : Pipeline)
    (X : gmap string Series) (y : Series) : result Pipeline :=
  let! ct := ct_fit (step_preprocessor p) X in
  let! Xt := ct_transform ct X in
  let! yv := to_float64 y in
  let! rf := rf_fit entropy (step_regressor p) Xt yv in
  Ok {| step_preprocessor := ct; step_regressor := rf |}.

Definition pipeline_predict (p : Pipeline) (X : gmap string Series)
  : result (list F) :=
  let! Xt := ct_transform (step_preprocessor p) X in
  rf_predict (step_regressor p) Xt.

End Libraries.

(** ** estimator.py *)

Section Estimator.
Context {F : Type} {py : PyFloat F} {np : NumPy F}.
Variable forest_fit :
  nat → nat → Z → list (list F) → list F → result (list F → F).
Local Open Scope py_scope.

Definition FIXED_SEARCH_TIME : F := lit_2_5.
Definition TIME_PER_SPOT : F := lit_1_2.
Definition TIME_PENALTY : Z := 10.

(** The fields of a [ParkingCapacityEstimator] object. *)
Record ParkingCapacityEstimator := {
  csv_path : string;
  model : option (Pipeline (F:=F));
  preprocessor : option (ColumnTransformer (F:=F))
}.

(** The cyclical encoding of the hour, as both methods compute it. *)
Definition hour_sin_of (hour : F) : F :=
  np_sin (of_int 2 * np_pi * hour / of_int 24).
Definition hour_cos_of (hour : F) : F :=
  np_cos (of_int 2 * np_pi * hour / of_int 24).

(** The body of [_load_and_train] up to the construction of the
    pipeline: the table, the two derived columns, [X] and [y]. *)
Definition load_features (fs : gmap string (gmap string Series)) (path : string)
  : result (gmap string Series * Series) :=
  let! df := read_csv fs path in
  let features :=
    ["day_type"; "hour"; "total_capacity"; "latitude"; "longitude"] in
  let target := "occupancy_rate" in
  let! hour := getitem df "hour" in
  let! hour_sin := series_map hour_sin_of hour in
  let df := <["hour_sin" := hour_sin]> df in
  let! hour := getitem df "hour" in
  let! hour_cos := series_map hour_cos_of hour in
  let df := <["hour_cos" := hour_cos]> df in
  let features :=
    ["day_type"; "total_capacity"; "latitude"; "longitude";
     "hour_sin"; "hour_cos"] in
  let! X := getitems df features in
  let! y := getitem df target in
  Ok (X, y).

(** [_load_and_train]: the assignments to [self.preprocessor] and
    [self.model] happen before [fit]; [fit] fits the steps in place, so
    that afterwards [self.preprocessor] is the fitted transformer of the
    pipeline.  When [fit] raises, the object keeps the two assignments;
    what [fit] had already fitted in place by then is not tracked, since
    no caller ever sees that object. *)
Definition _load_and_train (fs : gmap string (gmap string Series))
    (entropy : Z) : Method ParkingCapacityEstimator unit :=
  λ self,
    match load_features fs (csv_path self) with
    | Raise e => (Raise e, self)
    | Ok (X, y) =>
        let preprocessor0 :=
          {| cat_encoder :=
               {| handle_unknown := hu_ignore; categories_ := None |};
             cat_column := "day_type";
             num_columns :=
               ["total_capacity"; "latitude"; "longitude";
                "hour_sin"; "hour_cos"] |} in
        let self :=
          {| csv_path := csv_path self; model := model self;
             preprocessor := Some preprocessor0 |} in
        let model0 :=
          {| step_preprocessor := preprocessor0;
             step_regressor :=
               {| n_estimators := 300; max_depth := 12;
                  random_state := Some 42%Z; estimators_ := None |} |} in
        let self :=
          {| csv_path := csv_path self; model := Some model0;
             preprocessor := preprocessor self |} in
        match pipeline_fit forest_fit entropy model0 X y with
        | Raise e => (Raise e, self)
        | Ok fitted =>
            (Ok (),
             {| csv_path := csv_path self; model := Some fitted;
                preprocessor := Some (step_preprocessor fitted) |})
        end
    end.

(** [ParkingCapacityEstimator(csv_path)]: the object is returned to the
    caller only if [__init__] does not raise. *)
Definition __init__ (fs : gmap string (gmap string Series)) (entropy : Z)
    (path : string) : result ParkingCapacityEstimator :=
  let self := {| csv_path := path; model := None; preprocessor := None |} in
  match _load_and_train fs entropy self with
  | (Ok _, self) => Ok self
  | (Raise e, _) => Raise e
  end.

(** A value passed as [day_type]: a Python string, or a number (an int
    as its float).  The methods do not check it. *)
Inductive Label :=
  | LStr (s : string)
  | LNum (x : F).

(** The column that [pd.DataFrame] makes of one label: [object] for a
    string, numeric for a number. *)
Definition label_column (day_type : Label) : Series :=
  match day_type with
  | LStr s => Object [s]
  | LNum x => Float64 [x]
  end.

(** [pd.DataFrame([{...}])]: the one-row frame of a query. *)
Definition query_frame (day_type : Label)
    (total_capacity latitude longitude hour_sin hour_cos : F)
  : gmap string Series :=
  <["day_type" := label_column day_type]>
  (<["total_capacity" := Float64 [total_capacity]]>
  (<["latitude" := Float64 [latitude]]>
  (<["longitude" := Float64 [longitude]]>
  (<["hour_sin" := Float64 [hour_sin]]>
  (<["hour_cos" := Float64 [hour_cos]]> ∅))))).

(** [predict].  The four numbers are floats: an int argument stands as
    the float it is promoted to (an int beyond the range of a double,
    which pandas refuses with [OverflowError], is not among them). *)
Definition predict (day_type : Label)
    (hour total_capacity latitude longitude : F)
  : Method ParkingCapacityEstimator F :=
  let hour_sin := hour_sin_of hour in
  let hour_cos := hour_cos_of hour in
  let X_new :=
    query_frame day_type total_capacity latitude longitude hour_sin hour_cos in
  mread (λ self,
    let! m := match model self with
              | Some m => Ok m
              | None => Raise AttributeError
              end in
    let! ys := pipeline_predict m X_new in
    match ys with
    | y :: _ => Ok y
    | [] => Raise IndexError
    end).

Definition predict_search_time (day_type : Label)
    (hour total_capacity latitude longitude : F)
  : Method ParkingCapacityEstimator F :=
  call! p_occupied := predict day_type hour total_capacity latitude longitude in
  let p_free := of_int 1 - p_occupied in
  let expected_spots :=
    if p_free <? lit_1e_3 then total_capacity * of_int 2
    else of_int 1 / p_free in
  let total_time := expected_spots * TIME_PER_SPOT + FIXED_SEARCH_TIME in
  let total_time :=
    if p_free <? lit_0_05 then total_time + of_int TIME_PENALTY
    else total_time in
  mret total_time.

End Estimator.

(** A string literal where a label is expected is the string label. *)
#[warning="-uniform-inheritance"]
Coercion LStr : string >-> Label.

(** ** The search-time heuristic as the specification words it *)

Section SearchTimeFormula.
Context {F : Type} {py : PyFloat F}.
Local Open Scope py_scope.

(** Steps 3 to 7 of the specification's algorithm, as a function of
    [p_free] and the capacity: both thresholds are tests on [p_free]. *)
Definition spec_search_time (p_free total_capacity : F) : F :=
  let expected_spots :=
    if p_free <? lit_1e_3 then total_capacity * of_int 2
    else of_int 1 / p_free in
  let total_time := expected_spots * lit_1_2 + lit_2_5 in
  if p_free <? lit_0_05 then total_time + of_int 10 else total_time.

End SearchTimeFormula.

(** ** Vocabulary and indicator rows *)

Section Vocabulary.
Context {F : Type} {py : PyFloat F}.

(** A string label occurs in a column of strings if it is one of its
    elements, and does not occur in a column of numbers. *)
Definition occurs (day_type : string) (col : Series (F:=F)) : Prop :=
  match col with
  | Object xs => day_type ∈ xs
  | Float64 _ => False
  end.

(** The number of indicator positions of a vocabulary. *)
Definition vocabulary_size (cats : Series (F:=F)) : nat := series_len cats.

(** The indicator row of a label: one at the position of the label, zero
    elsewhere. *)
Definition indicator_row (cats : Series (F:=F)) (day_type : string) : list F :=
  match cats with
  | Object cs =>
      (λ c, if String.eqb c day_type then of_int 1 else of_int 0) <$> cs
  | Float64 cs => replicate (length cs) (of_int 0)
  end.

(** The transformer that [_load_and_train] builds, with vocabulary
    [cats] once fitted. *)
Definition estimator_preprocessor (cats : option (Series (F:=F)))
  : ColumnTransformer :=
  {| cat_encoder := {| handle_unknown := hu_ignore; categories_ := cats |};
     cat_column := "day_type";
     num_columns :=
       ["total_capacity"; "latitude"; "longitude"; "hour_sin"; "hour_cos"] |}.

(** The columns the training reads from the table. *)
Definition required_columns : list string :=
  ["day_type"; "hour"; "total_capacity"; "latitude"; "longitude";
   "occupancy_rate"].

End Vocabulary.

(** ** Numbers that the forest accepts *)

Section Validation.
Context {F : Type} {py : PyFloat F} {np : NumPy F}.

(** The five numbers of the row of a query pass the validation of the
    forest. *)
Definition query_fits (hour total_capacity latitude longitude : F) : bool :=
  forallb fits_float32
    [total_capacity; latitude; longitude; hour_sin_of hour; hour_cos_of hour].

(** The two values of an indicator pass it, in the arithmetic at hand. *)
Definition indicators_fit : Prop :=
  fits_float32 (of_int 0 : F) = true ∧ fits_float32 (of_int 1 : F) = true.

End Validation.

(** A sequence of queries against one estimator object.  A caller may go on
    after a query that raised: the object outlives the exception. *)
Section Queries.
Context {F : Type} {py : PyFloat F} {np : NumPy F}.

Inductive query :=
  | Predict (day_type : Label (F:=F))
      (hour total_capacity latitude longitude : F)
  | PredictSearchTime (day_type : Label (F:=F))
      (hour total_capacity latitude longitude : F).

Definition run_query (q : query) : Method ParkingCapacityEstimator F :=
  match q with
  | Predict d h c la lo => predict d h c la lo
  | PredictSearchTime d h c la lo => predict_search_time d h c la lo
  end.

(** The results of the queries, in order, and the object after them. *)
Fixpoint run_queries (qs : list query) (self : ParkingCapacityEstimator)
  : list (result F) * ParkingCapacityEstimator :=
  match qs with
  | [] => ([], self)
  | q :: qs' =>
      let '(r, self') := run_query q self in
      let '(rs, self'') := run_queries qs' self' in
      (r :: rs, self'')
  end.

End Queries.

(** ** Sample estimators and tables *)

Section Samples.
Context {F : Type} {py : PyFloat F}.
Local Open Scope py_scope.

(** A fitted estimator with vocabulary [SA], [WD] whose ensemble
    predicts [p] on every row. *)
Definition constant_estimator (p : F) : ParkingCapacityEstimator :=
  let ct := estimator_preprocessor (Some (Object ["SA"; "WD"])) in
  {| csv_path := "data/synthetic_parking_occupancy.csv";
     model :=
       Some {| step_preprocessor := ct;
               step_regressor :=
                 {| n_estimators := 300; max_depth := 12;
                    random_state := Some 42%Z;
                    estimators_ := Some (λ _, p) |} |};
     preprocessor := Some ct |}.

(** A learner that predicts the mean of the targets on every row.  On a
    table whose targets are all equal, every regression tree predicts that
    value, and so does the mean of any ensemble of them. *)
Definition mean_fit (n_trees depth : nat) (seed : Z)
    (X : list (list F)) (y : list F) : result (list F → F) :=
  match y with
  | [] => Raise ValueError
  | _ :: _ =>
      Ok (λ _, foldr fadd (of_int 0) y / of_int (Z.of_nat (length y)))
  end.

(** A table of two records, with occupancy rates 2 and 2 (rates are not
    checked to lie in the unit interval when the table is read). *)
Definition sample_table : gmap string Series :=
  list_to_map
    [("day_type", Object ["WD"; "SA"]);
     ("hour", Float64 [of_int 8; of_int 18]);
     ("total_capacity", Float64 [of_int 100; of_int 100]);
     ("latitude", Float64 [of_int 48; of_int 48]);
     ("longitude", Float64 [of_int 11; of_int 11]);
     ("occupancy_rate", Float64 [of_int 2; of_int 2])].

(** The same table without its records, and without a column. *)
Definition empty_table : gmap string (Series (F:=F)) :=
  list_to_map
    [("day_type", Object []);
     ("hour", Object []);
     ("total_capacity", Object []);
     ("latitude", Object []);
     ("longitude", Object []);
     ("occupancy_rate", Object [])].

Definition table_without_latitude : gmap string Series :=
  delete "latitude" sample_table.

(** The estimator that [mean_fit] trains on [sample_table]. *)
Definition sample_estimator : ParkingCapacityEstimator :=
  constant_estimator
    (foldr fadd (of_int 0) [of_int 2; of_int 2] / of_int (Z.of_nat 2)).

Definition sample_fs (df : gmap string (Series (F:=F)))
  : gmap string (gmap string (Series (F:=F))) :=
  {[ "data/synthetic_parking_occupancy.csv" := df ]}.

End Samples.

(** ** Binary64 values as real numbers, and the mathematical library *)

(** The rational number that a finite double denotes (zero for the
    infinities and NaN, which denote none). *)
Definition SF2Q (x : spec_float) : Q :=
  match x with
  | S754_finite s m e =>
      let q :=
        if (0 <=? e)%Z then inject_Z (Z.pos m * 2 ^ e)
        else (Z.pos m # (2 ^ Z.to_pos (- e))%positive)%Q in
      if s then Qopp q else q
  | _ => 0%Q
  end.

Definition float_value (x : float) : R := Q2R (SF2Q (Prim2SF x)).

(** The accuracy asked of the platform's sine and cosine: a relative error
    of at most [2^-50], four units in the last place.  (The libraries in
    use are more accurate; the less is asked, the more libraries the
    theorems cover.) *)
Definition libm_error : Q := (1 # (2 ^ 50))%Q.

(** At the finite double [x], [s] returns a finite double, and that
    double is the value of the real function [g] at [x] to that
    accuracy. *)
Definition accurate_at (g : R → R) (s : float → float) (x : float) : Prop :=
  is_finite x = true ∧
  is_finite (s x) = true ∧
  (Rabs (float_value (s x) - g (float_value x)) <=
   Q2R libm_error * Rabs (g (float_value x)))%R.

(** The argument of the sine and the cosine for an hour. *)
Definition hour_angle {F : Type} {py : PyFloat F} {np : NumPy F} (hour : F) : F :=
  (of_int 2 * np_pi * hour / of_int 24)%py.

(** The double nearest to two pi: the argument for the hour 24. *)
Definition two_pi_double : float := 6.2831853071795862%float.

(** The values of the sine and the cosine at the two arguments that the
    hours 0 and 24 produce, as a library accurate to the last place
    returns them.  No other argument is modelled: there the table answers
    NaN, which the forest refuses, so that nothing can rest on it. *)
Definition libm_table_sin (x : float) : float :=
  if PrimFloat.eqb x 0%float then 0%float
  else if PrimFloat.eqb x two_pi_double then (-2.4492935982947064e-16)%float
  else nan.

Definition libm_table_cos (x : float) : float :=
  if PrimFloat.eqb x 0%float then 1%float
  else if PrimFloat.eqb x two_pi_double then 1%float
  else nan.

Definition table_numpy : NumPy float :=
  binary64_numpy libm_table_sin libm_table_cos.

(** *** Rational bounds on pi *)

(** The terms and partial sums of the series for [PI / 4] by the formula
    [PI / 4 = 2 * atan (1/3) + atan (1/7)], as rational numbers. *)
Definition machin_term (i : nat) : Q :=
  let k := (2 * Z.of_nat i + 1)%Z in
  let num := (2 * 7 ^ k + 3 ^ k)%Z in
  let den := Z.to_pos (k * 21 ^ k) in
  if Nat.even i then (num # den)%Q else ((- num) # den)%Q.

Fixpoint machin_sum (n : nat) : Q :=
  match n with
  | O => machin_term 0
  | S m => (machin_sum m + machin_term (S m))%Q
  end.

Definition pi_lo : Q := (4 * machin_sum 37)%Q.
Definition pi_hi : Q := (4 * machin_sum 36)%Q.

(** The distance from the double nearest to two pi up to two pi, and
    rational bounds on it. *)
Definition two_pi_gap : R := (2 * PI - float_value two_pi_double)%R.
Definition gap_lo : Q := (2 * pi_lo - SF2Q (Prim2SF two_pi_double))%Q.
Definition gap_hi : Q := (2 * pi_hi - SF2Q (Prim2SF two_pi_double))%Q.
Definition tiny : Q := (1 # 10 ^ 15)%Q.

(** ** More sample data *)

Section MoreSamples.
Context {F : Type} {py : PyFloat F}.
Local Open Scope py_scope.



(** The estimator that [finite_mean_fit] trains on [midnight_table]. *)
Definition midnight_estimator : ParkingCapacityEstimator :=
  constant_estimator
    (foldr fadd (of_int 0) [of_int 0; of_int 1] / of_int (Z.of_nat 2)).

End MoreSamples.

(** ** Order of a vocabulary *)

(** A list is increasing for [lt] if every element is below all the later
    ones. *)
Fixpoint increasing {A} (lt : A → A → bool) (l : list A) : Prop :=
  match l with
  | [] => True
  | x :: l' => Forall (λ y, lt x y = true) l' ∧ increasing lt l'
  end.

(** ** The script entry point *)

Section EntryPoint.
Context {F : Type} {py : PyFloat F} {np : NumPy F}.
Variable forest_fit :
  nat → nat → Z → list (list F) → list F → result (list F → F).

(** The block under [if __name__ == "__main__"]: construct the estimator
    from the synthetic data set, query the search time for a Saturday at
    18, capacity 100, and print it.  The result is the printed value, or
    the exception that ends the script.  The two coordinates are float
    literals of the script; a literal is written per arithmetic, so they
    are arguments here. *)
Definition main (fs : gmap string (gmap string Series)) (entropy : Z)
    (latitude longitude : F) : result F :=
  let! estimator :=
    __init__ forest_fit fs entropy "data/synthetic_parking_occupancy.csv" in
  let prediction :=
    (predict_search_time "SA" (of_int 18) (of_int 100) latitude longitude
       estimator).1 in
  prediction.

End EntryPoint.

(** ** Division as the interpreter performs it *)

(** [x / y] on Python floats raises [ZeroDivisionError] when [y == 0.0]
    (either zero); [None] stands for that exception. *)
Definition float_truediv (x y : float) : option float :=
  if PrimFloat.eqb y 0%float then None else Some (PrimFloat.div x y).

(** Lines 88 to 98 of [predict_search_time] in binary64, with the division
    of line 93 performed by [float_truediv]. *)
Definition search_time_checked (p_occupied total_capacity : float)
  : option float :=
  let p_free := (1 - p_occupied)%float in
  let expected_spots :=
    if (p_free <? 1e-3)%float then Some (total_capacity * 2)%float
    else float_truediv 1%float p_free in
  match expected_spots with
  | None => None
  | Some expected_spots =>
      let total_time := (expected_spots * 1.2 + 2.5)%float in
      let total_time :=
        if (p_free <? 0.05)%float then (total_time + 10)%float
        else total_time in
      Some total_time
  end.

(** * Properties *)

(** ** Control flow of the two queries, for every arithmetic *)

Section Generic.
Context {F : Type} {py : PyFloat F} {np : NumPy F}.
Local Open Scope py_scope.

Implicit Types self : ParkingCapacityEstimator (F:=F).

Lemma predict_state d h c la lo self :
  (predict d h c la lo self).2 = self.
Proof. reflexivity. Qed.

Lemma predict_search_time_unfold d h c la lo self :
  predict_search_time d h c la lo self =
  match predict d h c la lo self with
  | (Ok p, self') => (Ok (spec_search_time (of_int 1 - p) c), self')
  | (Raise e, self') => (Raise e, self')
  end.
Proof.
  unfold predict_search_time, mbind.
  destruct (predict d h c la lo self) as [[p|e] self']; reflexivity.
Qed.

Lemma predict_search_time_ok d h c la lo self p :
  predict d h c la lo self = (Ok p, self) →
  predict_search_time d h c la lo self =
  (Ok (spec_search_time (of_int 1 - p) c), self).
Proof. intros Hp. rewrite predict_search_time_unfold, Hp. reflexivity. Qed.

Lemma predict_search_time_state d h c la lo self :
  (predict_search_time d h c la lo self).2 = self.
Proof.
  rewrite predict_search_time_unfold.
  pose proof (predict_state d h c la lo self) as Hs.
  destruct (predict d h c la lo self) as [[p|e] self']; exact Hs.
Qed.

(** C1.  For every input and every state of the estimator,
    [predict_search_time] calls [predict], and on its result [p_occupied]
    returns the search time of the specification's steps 2 to 7 at
    [p_free = 1 - p_occupied]: twice the capacity below 0.001 and
    [1 / p_free] otherwise, times 1.2 plus 2.5, plus 10 when
    [p_free < 0.05]; both tests are on [p_free].  An exception of
    [predict] propagates. *)
Theorem predict_search_time_spec d h c la lo self :
  predict_search_time d h c la lo self =
  (call! p_occupied := predict d h c la lo in
   mret (spec_search_time (of_int 1 - p_occupied) c)) self.
Proof.
  rewrite predict_search_time_unfold. unfold mbind, mret.
  destruct (predict d h c la lo self) as [[p|e] self']; reflexivity.
Qed.

(** C9.  Queries do not change the estimator: after any sequence of
    calls of [predict] and [predict_search_time], whether they return or
    raise, the object is the one the sequence started from, with its
    fitted model, its preprocessor and its path. *)
Theorem queries_preserve_estimator (qs : list query) self :
  (run_queries qs self).2 = self.
Proof.
  revert self. induction qs as [|q qs IH]; intros self; [reflexivity|].
  cbn [run_queries].
  assert (Hq : (run_query q self).2 = self).
  { destruct q; [apply predict_state | apply predict_search_time_state]. }
  destruct (run_query q self) as [r self']. cbn in Hq. subst self'.
  specialize (IH self).
  destruct (run_queries qs self) as [rs self'']. exact IH.
Qed.

End Generic.

(** ** The heuristic in exact arithmetic *)

Section Real.
Local Open Scope R_scope.

Implicit Types self : ParkingCapacityEstimator (F:=R).

Lemma Rltb_true a b : a < b → Rltb a b = true.
Proof. intros Hab. unfold Rltb. destruct (Rlt_dec a b); [reflexivity|lra]. Qed.

Lemma Rltb_false a b : b <= a → Rltb a b = false.
Proof. intros Hab. unfold Rltb. destruct (Rlt_dec a b); [lra|reflexivity]. Qed.

Lemma spec_search_time_real p_free c :
  spec_search_time p_free c =
  let expected_spots := if Rltb p_free 0.001 then c * 2 else 1 / p_free in
  let total_time := expected_spots * 1.2 + 2.5 in
  if Rltb p_free 0.05 then total_time + 10 else total_time.
Proof. reflexivity. Qed.

(** The three regimes of the heuristic. *)
Lemma spec_search_time_fallback p_free c :
  p_free < 0.001 →
  spec_search_time p_free c = c * 2 * 1.2 + 2.5 + 10.
Proof.
  intros Hp. rewrite spec_search_time_real.
  rewrite !Rltb_true by lra. reflexivity.
Qed.

Lemma spec_search_time_congested p_free c :
  0.001 <= p_free → p_free < 0.05 →
  spec_search_time p_free c = 1 / p_free * 1.2 + 2.5 + 10.
Proof.
  intros Hlo Hhi. rewrite spec_search_time_real.
  rewrite Rltb_false, Rltb_true by lra. reflexivity.
Qed.

Lemma spec_search_time_free p_free c :
  0.05 <= p_free →
  spec_search_time p_free c = 1 / p_free * 1.2 + 2.5.
Proof.
  intros Hp. rewrite spec_search_time_real.
  rewrite !Rltb_false by lra. reflexivity.
Qed.

Lemma inv_antitone a b : 0 < b → b <= a → 1 / a <= 1 / b.
Proof.
  intros Hb Hab. unfold Rdiv. rewrite !Rmult_1_l.
  apply Rinv_le_contravar; assumption.
Qed.

Lemma inv_le_1000 a : 0.001 <= a → 1 / a <= 1000.
Proof.
  intros Ha. replace 1000 with (1 / 0.001) by lra.
  apply inv_antitone; lra.
Qed.

(** Outside the fallback regime the search time does not increase with
    [p_free]. *)
Lemma spec_search_time_antitone p q c :
  0.001 <= q → q <= p →
  spec_search_time p c <= spec_search_time q c.
Proof.
  intros Hq Hqp.
  pose proof (inv_antitone p q ltac:(lra) Hqp) as Hinv.
  destruct (Rlt_dec p 0.05) as [Hp|Hp].
  - rewrite !spec_search_time_congested by lra. lra.
  - destruct (Rlt_dec q 0.05) as [Hq'|Hq'].
    + rewrite spec_search_time_free, spec_search_time_congested by lra. lra.
    + rewrite !spec_search_time_free by lra. lra.
Qed.

(** From a capacity of 500 on, the fallback value is above every value
    of the other regimes. *)
Lemma spec_search_time_below_fallback p q c :
  500 <= c → q < 0.001 → 0.001 <= p →
  spec_search_time p c <= spec_search_time q c.
Proof.
  intros Hc Hq Hp.
  pose proof (inv_le_1000 p Hp) as Hinv.
  rewrite (spec_search_time_fallback q) by lra.
  destruct (Rlt_dec p 0.05) as [Hp'|Hp'].
  - rewrite spec_search_time_congested by lra. lra.
  - rewrite spec_search_time_free by lra. lra.
Qed.

End Real.

(** ** The encoder and the fitted pipeline *)

Section Fitted.
Context {F : Type} {py : PyFloat F} {np : NumPy F}.
Variable forest_fit :
  nat → nat → Z → list (list F) → list F → result (list F → F).

Implicit Types self : ParkingCapacityEstimator (F:=F).
Implicit Types df X : gmap string (Series (F:=F)).

Lemma ohe_row_ignore {A} (eqb : A → A → bool) (cats : list A) (v : A) :
  ohe_row hu_ignore eqb cats v =
  Ok ((λ c, if eqb c v then of_int 1 else of_int 0) <$> cats).
Proof. unfold ohe_row. destruct (existsb _ cats); reflexivity. Qed.

Lemma insert_unique_elem {A} (lt : A → A → bool) (x y : A) (l : list A) :
  y ∈ insert_unique lt x l → y = x ∨ y ∈ l.
Proof.
  induction l as [|z l IH]; cbn.
  - intros Hy. apply list_elem_of_singleton in Hy. left. exact Hy.
  - destruct (lt x z).
    + intros Hy. apply elem_of_cons in Hy as [->|Hy]; [left|right]; done.
    + destruct (lt z x); [|right; done].
      intros Hy. apply elem_of_cons in Hy as [->|Hy].
      * right. apply elem_of_cons. left. reflexivity.
      * destruct (IH Hy) as [->|Hl]; [left; reflexivity|].
        right. apply elem_of_cons. right. exact Hl.
Qed.

Lemma np_unique_elem {A} (lt : A → A → bool) (y : A) (l : list A) :
  y ∈ np_unique lt l → y ∈ l.
Proof.
  induction l as [|x l IH]; cbn; [done|].
  intros Hy. apply insert_unique_elem in Hy as [->|Hy].
  - apply elem_of_cons. left. reflexivity.
  - apply elem_of_cons. right. apply IH, Hy.
Qed.

(** A label that does not occur in the training column has the all-zero
    indicator row. *)
Lemma indicator_row_unseen (col : Series (F:=F)) (d : string) :
  ¬ occurs d col →
  indicator_row (series_unique col) d =
  replicate (vocabulary_size (series_unique col)) (of_int 0).
Proof.
  destruct col as [xs|xs]; cbn; [reflexivity|].
  intros Hd.
  assert (Hu : d ∉ np_unique String.ltb xs).
  { intros Hin. apply Hd, (np_unique_elem _ _ _ Hin). }
  induction (np_unique String.ltb xs) as [|c cs IH]; [reflexivity|].
  cbn. destruct (String.eqb_spec c d) as [->|Hne].
  - exfalso. apply Hu, elem_of_cons. left. reflexivity.
  - f_equal. apply IH. intros Hin. apply Hu, elem_of_cons. right. exact Hin.
Qed.

(** The one-row frame of a query holds the six features. *)
Lemma query_frame_day_type (d : Label) (c la lo hs hc : F) :
  getitem (query_frame d c la lo hs hc) "day_type" = Ok (label_column d).
Proof. reflexivity. Qed.

Lemma query_frame_numeric d (c la lo hs hc : F) :
  rmapM (λ k, let! s := getitem (query_frame d c la lo hs hc) k in to_float64 s)
    ["total_capacity"; "latitude"; "longitude"; "hour_sin"; "hour_cos"] =
  Ok [[c]; [la]; [lo]; [hs]; [hc]].
Proof. reflexivity. Qed.

(** The estimator's transformer maps a query to one row: the indicator
    row of the label, then the five numbers in the order of the code. *)
Lemma ct_transform_query cats (d : string) (c la lo hs hc : F) :
  ct_transform (estimator_preprocessor (Some cats)) (query_frame d c la lo hs hc) =
  Ok [indicator_row cats d ++ [c; la; lo; hs; hc]].
Proof.
  unfold ct_transform, estimator_preprocessor.
  cbn [cat_column num_columns cat_encoder].
  rewrite query_frame_day_type, query_frame_numeric. cbn [rbind label_column].
  unfold ohe_transform. cbn [categories_ handle_unknown].
  destruct cats as [cs|cs]; cbn [rmapM rbind].
  - reflexivity.
  - rewrite ohe_row_ignore. reflexivity.
Qed.



(** On a fitted estimator [predict] validates the row, and returns the
    ensemble's value at it. *)
Lemma predict_fitted self cats rf f d h c la lo :
  model self =
    Some {| step_preprocessor := estimator_preprocessor (Some cats);
            step_regressor := rf |} →
  estimators_ rf = Some f →
  let row := indicator_row cats d ++ [c; la; lo; hour_sin_of h; hour_cos_of h] in
  predict d h c la lo self =
  (if forallb fits_float32 row then Ok (f row) else Raise ValueError, self).
Proof.
  intros Hm Hf. cbn zeta. unfold predict, mread. rewrite Hm. cbn [rbind].
  unfold pipeline_predict. cbn [step_preprocessor step_regressor].
  rewrite ct_transform_query. cbn [rbind].
  unfold rf_predict. rewrite Hf. cbn [forallb]. rewrite andb_true_r.
  destruct (forallb fits_float32 _); reflexivity.
Qed.

Lemma indicator_row_fits (cats : Series (F:=F)) d :
  indicators_fit (F:=F) → forallb fits_float32 (indicator_row cats d) = true.
Proof.
  intros [H0 H1]. apply forallb_forall. intros x Hx.
  apply list_elem_of_In in Hx. destruct cats as [cs|cs]; cbn in Hx.
  - apply elem_of_replicate_inv in Hx as ->. exact H0.
  - apply list_elem_of_fmap in Hx as (c0 & -> & _).
    destruct (String.eqb c0 d); assumption.
Qed.

(** The indicator part of a row always passes the validation: a query is
    refused for its five numbers only. *)
Lemma row_fits (cats : Series (F:=F)) d h c la lo :
  indicators_fit (F:=F) →
  forallb fits_float32
    (indicator_row cats d ++ [c; la; lo; hour_sin_of h; hour_cos_of h]) =
  query_fits h c la lo.
Proof.
  intros Hind. rewrite forallb_app, (indicator_row_fits _ _ Hind). reflexivity.
Qed.

Lemma predict_fitted_query self cats rf f (d : string) h c la lo :
  indicators_fit (F:=F) →
  model self =
    Some {| step_preprocessor := estimator_preprocessor (Some cats);
            step_regressor := rf |} →
  estimators_ rf = Some f →
  predict d h c la lo self =
  (if query_fits h c la lo
   then Ok (f (indicator_row cats d ++ [c; la; lo; hour_sin_of h; hour_cos_of h]))
   else Raise ValueError, self).
Proof.
  intros Hind Hm Hf. rewrite (predict_fitted self _ _ _ d h c la lo Hm Hf).
  cbn zeta. rewrite (row_fits _ _ _ _ _ _ Hind). reflexivity.
Qed.

(** *** Training *)

(** Inversion of a chain of binds that returned. *)
Ltac rbind_inv :=
  repeat match goal with
  | H : rbind ?c _ = Ok _ |- _ =>
      let E := fresh "E" in
      destruct c eqn:E; cbn [rbind] in H; [|discriminate H]
  | H : Ok _ = Ok _ |- _ => injection H as H; try subst
  end.

Lemma getitem_Ok df k s : getitem df k = Ok s ↔ df !! k = Some s.
Proof.
  unfold getitem. destruct (df !! k) as [s'|]; split; intros Hs;
    try discriminate; congruence.
Qed.

Lemma getitem_Raise df k e : getitem df k = Raise e → e = KeyError k.
Proof.
  unfold getitem. destruct (df !! k); intros Hs; [discriminate|congruence].
Qed.

(** What [X] and [y] are when the table has all that the training reads. *)
Lemma load_features_Ok fs path X y :
  load_features fs path = Ok (X, y) →
  ∃ df hour hs hc sd sc sla slo,
    fs !! path = Some df ∧
    df !! "hour" = Some hour ∧
    series_map hour_sin_of hour = Ok hs ∧
    series_map hour_cos_of hour = Ok hc ∧
    df !! "day_type" = Some sd ∧
    df !! "total_capacity" = Some sc ∧
    df !! "latitude" = Some sla ∧
    df !! "longitude" = Some slo ∧
    df !! "occupancy_rate" = Some y ∧
    X = <["day_type" := sd]> (<["total_capacity" := sc]>
        (<["latitude" := sla]> (<["longitude" := slo]>
        (<["hour_sin" := hs]> (<["hour_cos" := hc]> ∅))))).
Proof.
  unfold load_features, read_csv. intros H.
  destruct (fs !! path) as [df|] eqn:Hfs; [|discriminate H].
  cbn [rbind getitems] in H. rbind_inv.
  repeat match goal with
  | E : getitem _ _ = Ok _ |- _ => apply getitem_Ok in E
  end.
  simplify_map_eq. repeat eexists; eauto.
Qed.

(** A construction that returns has fitted the pipeline of the code: the
    encoder ignores unknown labels and its vocabulary is that of the
    [day_type] column; the ensemble is what the learner returned for 300
    trees, depth 12 and seed 42. *)
Lemma init_Ok fs entropy path self :
  __init__ forest_fit fs entropy path = Ok self →
  ∃ df sd rf f Xt yv,
    fs !! path = Some df ∧
    df !! "day_type" = Some sd ∧
    series_len sd ≠ 0%nat ∧
    csv_path self = path ∧
    model self =
      Some {| step_preprocessor := estimator_preprocessor (Some (series_unique sd));
              step_regressor := rf |} ∧
    preprocessor self = Some (estimator_preprocessor (Some (series_unique sd))) ∧
    estimators_ rf = Some f ∧
    forest_fit 300 12 42%Z Xt yv = Ok f.
Proof.
  unfold __init__, _load_and_train. cbn [csv_path model preprocessor].
  destruct (load_features fs path) as [[X y]|e] eqn:Hload; [|discriminate].
  destruct (pipeline_fit _ _ _ X y) as [fitted|e] eqn:Hfit; [|discriminate].
  intros [= <-].
  apply load_features_Ok in Hload
    as (df & hour & hs & hc & sd & sc & sla & slo & Hfs & _ & _ & _ & Hd & _ & _ & _ & _ & ->).
  unfold pipeline_fit, ct_fit, rf_fit in Hfit.
  cbn [step_preprocessor step_regressor cat_column cat_encoder num_columns
       n_estimators max_depth random_state default] in Hfit.
  unfold getitem at 1 in Hfit. rewrite lookup_insert_eq in Hfit.
  cbn [rbind] in Hfit. unfold ohe_fit in Hfit.
  destruct (Nat.eqb_spec (series_len sd) 0) as [Hlen|Hlen];
    [discriminate Hfit|].
  cbn [rbind handle_unknown] in Hfit. rbind_inv.
  cbn [csv_path model preprocessor step_preprocessor].
  repeat eexists; eauto.
Qed.



(** Without a seed the learner would draw on the entropy of the process. *)
Lemma rf_fit_unseeded entropy (rf : RandomForestRegressor) Xt yv :
  random_state rf = None →
  rf_fit forest_fit entropy rf Xt yv =
  let! f := forest_fit (n_estimators rf) (max_depth rf) entropy Xt yv in
  Ok {| n_estimators := n_estimators rf; max_depth := max_depth rf;
        random_state := None; estimators_ := Some f |}.
Proof. intros Hrs. unfold rf_fit. rewrite Hrs. reflexivity. Qed.

Lemma load_and_train_entropy fs e1 e2 self :
  _load_and_train forest_fit fs e1 self = _load_and_train forest_fit fs e2 self.
Proof.
  unfold _load_and_train.
  destruct (load_features fs (csv_path self)) as [[X y]|e]; reflexivity.
Qed.

(** C5.  Training is deterministic: the estimator that a construction
    returns (or the exception it raises) is a function of the table alone,
    whatever entropy the process offers to the learner, because the code
    seeds the learner with 42; and two estimators constructed from the
    same table return the same value, bit for bit, or raise the same
    exception, on the same query. *)
Theorem training_deterministic fs path e1 e2 d h c la lo :
  __init__ forest_fit fs e1 path = __init__ forest_fit fs e2 path ∧
  (let! self := __init__ forest_fit fs e1 path in (predict d h c la lo self).1) =
  (let! self := __init__ forest_fit fs e2 path in (predict d h c la lo self).1).
Proof.
  assert (Heq : __init__ forest_fit fs e1 path = __init__ forest_fit fs e2 path).
  { unfold __init__. rewrite (load_and_train_entropy fs e1 e2). reflexivity. }
  split; [exact Heq|]. rewrite Heq. reflexivity.
Qed.

(** *** Malformed tables *)

Lemma series_map_Raise (g : F → F) (s : Series) e :
  series_map g s = Raise e → e = TypeError.
Proof. destruct s as [xs|[|x xs]]; cbn; congruence. Qed.

(** Once the file is read, every exception of the feature construction is
    an absent column or a column without arithmetic. *)
Lemma load_features_Raise fs path df e :
  fs !! path = Some df →
  load_features fs path = Raise e →
  error_class e = DataShapeError.
Proof.
  unfold load_features, read_csv. intros -> H.
  cbn [rbind getitems] in H.
  repeat match goal with
  | H : rbind ?c _ = Raise _ |- _ =>
      let E := fresh "E" in
      destruct c eqn:E; cbn [rbind] in H; [|injection H as <-]
  | H : Ok _ = Raise _ |- _ => discriminate H
  | H : getitem _ _ = Raise _ |- _ => apply getitem_Raise in H as ->
  | H : series_map _ _ = Raise _ |- _ => apply series_map_Raise in H as ->
  end; reflexivity.
Qed.

(** The encoder refuses a table without records. *)
Lemma pipeline_fit_empty entropy (p : Pipeline) X (sd y : Series) :
  X !! cat_column (step_preprocessor p) = Some sd →
  series_len sd = 0%nat →
  pipeline_fit forest_fit entropy p X y = Raise ValueError.
Proof.
  intros HX Hlen. unfold pipeline_fit, ct_fit, getitem. rewrite HX.
  cbn [rbind]. unfold ohe_fit. rewrite Hlen. reflexivity.
Qed.

(** C8.  If the table read from the path has no record, or lacks one of
    the columns [day_type], [hour], [total_capacity], [latitude],
    [longitude], [occupancy_rate], then the training raises an exception
    of the data-shape class (an absent column is a [KeyError], an empty
    table a [ValueError]), the construction raises it in turn, and so
    returns no estimator: the object that the training left half
    initialised is not given to the caller. *)
Theorem init_fails_on_malformed_table fs entropy path df :
  fs !! path = Some df →
  (∀ k s, df !! k = Some s → series_len s = 0%nat) ∨
  (∃ k, k ∈ required_columns ∧ df !! k = None) →
  ∃ e,
    (_load_and_train forest_fit fs entropy
       {| csv_path := path; model := None; preprocessor := None |}).1 = Raise e ∧
    __init__ forest_fit fs entropy path = Raise e ∧
    error_class e = DataShapeError.
Proof.
  intros Hfs Hbad. unfold __init__, _load_and_train.
  cbn [csv_path model preprocessor].
  destruct (load_features fs path) as [[X y]|e] eqn:Hload.
  - apply load_features_Ok in Hload
      as (df' & hour & hs & hc & sd & sc & sla & slo & Hfs' & Hh & _ & _
          & Hd & Hc & Hla & Hlo & Hy & ->).
    assert (df' = df) as -> by congruence.
    destruct Hbad as [Hempty|(k & Hk & Hnone)].
    + rewrite (pipeline_fit_empty _ _ _ sd y).
      * exists ValueError. repeat split; reflexivity.
      * apply lookup_insert_eq.
      * apply (Hempty _ _ Hd).
    + exfalso. unfold required_columns in Hk.
      repeat (apply elem_of_cons in Hk as [->|Hk]; [congruence|]).
      apply elem_of_nil in Hk. exact Hk.
  - exists e. cbn. repeat split.
    apply (load_features_Raise _ _ _ _ Hfs Hload).
Qed.

(** Whatever [predict] returns is the value of the fitted ensemble at the
    first transformed row of the query: nothing is applied to it. *)
Lemma predict_Ok_inv self d h c la lo v :
  predict d h c la lo self = (Ok v, self) →
  ∃ m f row rest,
    model self = Some m ∧
    estimators_ (step_regressor m) = Some f ∧
    ct_transform (step_preprocessor m)
      (query_frame d c la lo (hour_sin_of h) (hour_cos_of h)) = Ok (row :: rest) ∧
    v = f row.
Proof.
  unfold predict, mread. intros [= H].
  destruct (model self) as [m|]; [|discriminate H].
  cbn [rbind] in H. unfold pipeline_predict in H.
  destruct (ct_transform _ _) as [Xt|e] eqn:Hct; [|discriminate H].
  cbn [rbind] in H. unfold rf_predict in H.
  destruct (estimators_ (step_regressor m)) as [f|] eqn:Hf; [|discriminate H].
  destruct (forallb (forallb fits_float32) Xt); [|discriminate H].
  destruct Xt as [|row rest]; cbn in H; [discriminate H|].
  injection H as <-. exists m, f, row, rest. repeat split; done.
Qed.

(** With [handle_unknown="error"] the same label would raise. *)
Lemma ohe_row_error_unseen {A} (eqb : A → A → bool) (cats : list A) (v : A) :
  existsb (λ c, eqb c v) cats = false →
  ohe_row hu_error eqb cats v = Raise ValueError.
Proof. intros Hv. unfold ohe_row. rewrite Hv. reflexivity. Qed.

(** *** The sample estimators *)

Lemma constant_estimator_predict (p : F) (d : string) h c la lo :
  indicators_fit (F:=F) →
  query_fits h c la lo = true →
  predict d h c la lo (constant_estimator p) = (Ok p, constant_estimator p).
Proof.
  intros Hind Hq.
  rewrite (predict_fitted_query (constant_estimator p) (Object ["SA"; "WD"])
             {| n_estimators := 300; max_depth := 12; random_state := Some 42%Z;
                estimators_ := Some (λ _, p) |} (λ _, p) d h c la lo Hind
             eq_refl eq_refl).
  rewrite Hq. reflexivity.
Qed.

Lemma init_sample entropy :
  __init__ mean_fit (sample_fs sample_table) entropy
    "data/synthetic_parking_occupancy.csv" = Ok sample_estimator.
Proof. vm_compute. reflexivity. Qed.

(** A table without the [latitude] column: the selection of the feature
    columns raises [KeyError]. *)
Example init_without_latitude entropy :
  __init__ mean_fit (sample_fs table_without_latitude) entropy
    "data/synthetic_parking_occupancy.csv" = Raise (KeyError "latitude").
Proof. vm_compute. reflexivity. Qed.


(** A missing file is reported as such. *)
Example init_missing_file entropy :
  __init__ mean_fit (sample_fs sample_table) entropy "data/absent.csv" =
  Raise (FileNotFoundError "data/absent.csv").
Proof. vm_compute. reflexivity. Qed.

End Fitted.

(** ** Claims on the search time, in exact arithmetic *)

Section RealClaims.
Local Open Scope R_scope.

Implicit Types self : ParkingCapacityEstimator (F:=R).

(** *** Validation of real numbers *)

Lemma float32_bound_value :
  float32_bound = 340282356779733661637539395458142568448%Z.
Proof. reflexivity. Qed.

Lemma real_fits (x : R) : -1e30 <= x <= 1e30 → fits_float32 x = true.
Proof.
  intros [Hlo Hhi]. unfold fits_float32.
  change (Rltb x (IZR float32_bound) && Rltb (IZR (- float32_bound)) x = true).
  rewrite opp_IZR, float32_bound_value. rewrite !Rltb_true; [reflexivity|lra|lra].
Qed.

Lemma real_indicators_fit : indicators_fit (F:=R).
Proof. split; [apply (real_fits 0)|apply (real_fits 1)]; lra. Qed.

(** The sine and the cosine of every hour pass: a query on real numbers is
    refused for its capacity or coordinates only. *)
Lemma real_query_fits (h c la lo : R) :
  -1e30 <= c <= 1e30 → -1e30 <= la <= 1e30 → -1e30 <= lo <= 1e30 →
  query_fits h c la lo = true.
Proof.
  intros Hc Hla Hlo. unfold query_fits. cbn [forallb].
  pose proof (SIN_bound (2 * PI * h / 24)) as Hsin.
  pose proof (COS_bound (2 * PI * h / 24)) as Hcos.
  change (sin (2 * PI * h / 24)) with (hour_sin_of h) in Hsin.
  change (cos (2 * PI * h / 24)) with (hour_cos_of h) in Hcos.
  rewrite !real_fits; try assumption; try reflexivity; lra.
Qed.

Lemma real_constant_estimator_predict (p : R) (d : string) h c la lo :
  -1e30 <= c <= 1e30 → -1e30 <= la <= 1e30 → -1e30 <= lo <= 1e30 →
  predict d h c la lo (constant_estimator p) = (Ok p, constant_estimator p).
Proof.
  intros Hc Hla Hlo. apply constant_estimator_predict.
  - exact real_indicators_fit.
  - apply real_query_fits; assumption.
Qed.

(** C3.  When the predicted occupancy leaves [p_free = 0.0005] and the
    capacity is 100, [predict_search_time] returns 252.5: the fallback
    gives 200 expected spots, 200 * 1.2 + 2.5 = 242.5, and the penalty of
    10 applies. *)
Theorem scenario_near_full self d h la lo p :
  predict d h 100 la lo self = (Ok p, self) →
  1 - p = 0.0005 →
  predict_search_time d h 100 la lo self = (Ok 252.5, self).
Proof.
  intros Hp Hfree. rewrite (predict_search_time_ok _ _ _ _ _ _ _ Hp).
  change (of_int 1 - p)%py with (1 - p). rewrite Hfree.
  rewrite spec_search_time_fallback by lra.
  do 2 f_equal. lra.
Qed.

Lemma scenario_near_full_witness :
  let self := constant_estimator 0.9995 in
  predict "SA" 18 100 48.13974710476859 11.540635988637927 self =
    (Ok 0.9995, self) ∧
  1 - 0.9995 = 0.0005 ∧
  predict_search_time "SA" 18 100 48.13974710476859 11.540635988637927 self =
    (Ok 252.5, self).
Proof.
  cbn zeta.
  assert (Hp := real_constant_estimator_predict 0.9995 "SA" 18 100
                  48.13974710476859 11.540635988637927
                  ltac:(split; lra) ltac:(split; lra) ltac:(split; lra)).
  assert (Hfree : 1 - 0.9995 = 0.0005) by lra.
  split; [exact Hp|]. split; [exact Hfree|].
  exact (scenario_near_full _ _ _ _ _ _ Hp Hfree).
Defined.

(** C10.  Whenever the fallback branch fires ([p_free < 0.001]), the test
    of the penalty succeeds as well, and [predict_search_time] returns
    exactly [total_capacity * 2 * 1.2 + 2.5 + 10]; for a capacity that is
    not negative this is at least 12.5. *)
Theorem fallback_implies_penalty self d h c la lo p :
  predict d h c la lo self = (Ok p, self) →
  1 - p < 0.001 →
  flt (1 - p) lit_0_05 = true ∧
  predict_search_time d h c la lo self = (Ok (c * 2 * 1.2 + 2.5 + 10), self) ∧
  (0 <= c → 12.5 <= c * 2 * 1.2 + 2.5 + 10).
Proof.
  intros Hp Hfree. split; [|split].
  - change (Rltb (1 - p) 0.05 = true). apply Rltb_true. lra.
  - rewrite (predict_search_time_ok _ _ _ _ _ _ _ Hp).
    change (of_int 1 - p)%py with (1 - p).
    rewrite spec_search_time_fallback by exact Hfree. reflexivity.
  - intros Hc. lra.
Qed.

Lemma fallback_implies_penalty_witness :
  let self := constant_estimator 1 in
  predict "SA" 18 100 48.13974710476859 11.540635988637927 self = (Ok 1, self) ∧
  1 - 1 < 0.001 ∧
  flt (1 - 1) lit_0_05 = true ∧
  predict_search_time "SA" 18 100 48.13974710476859 11.540635988637927 self =
    (Ok (100 * 2 * 1.2 + 2.5 + 10), self) ∧
  (0 <= 100 → 12.5 <= 100 * 2 * 1.2 + 2.5 + 10).
Proof.
  cbn zeta.
  assert (Hp := real_constant_estimator_predict 1 "SA" 18 100
                  48.13974710476859 11.540635988637927
                  ltac:(split; lra) ltac:(split; lra) ltac:(split; lra)).
  assert (Hfree : 1 - 1 < 0.001) by lra.
  split; [exact Hp|]. split; [exact Hfree|].
  exact (fallback_implies_penalty _ _ _ _ _ _ _ Hp Hfree).
Defined.

(** C2, as the specification states it, fails.  With capacity 100, an
    estimator that predicts occupancy 0.999 answers 1212.5, and one that
    predicts the higher occupancy 0.9995 answers 252.5: below
    [p_free = 0.001] the code replaces [1 / p_free] (at least 1000) by
    twice the capacity (200). *)
Lemma search_time_not_monotone :
  let self1 := constant_estimator 0.999 in
  let self2 := constant_estimator 0.9995 in
  predict "SA" 18 100 48.13974710476859 11.540635988637927 self1 =
    (Ok 0.999, self1) ∧
  predict "SA" 18 100 48.13974710476859 11.540635988637927 self2 =
    (Ok 0.9995, self2) ∧
  0.999 <= 0.9995 ∧
  predict_search_time "SA" 18 100 48.13974710476859 11.540635988637927 self1 =
    (Ok 1212.5, self1) ∧
  predict_search_time "SA" 18 100 48.13974710476859 11.540635988637927 self2 =
    (Ok 252.5, self2) ∧
  ¬ (1212.5 <= 252.5).
Proof.
  cbn zeta.
  assert (Hp1 := real_constant_estimator_predict 0.999 "SA" 18 100
                  48.13974710476859 11.540635988637927
                  ltac:(split; lra) ltac:(split; lra) ltac:(split; lra)).
  assert (Hp2 := real_constant_estimator_predict 0.9995 "SA" 18 100
                  48.13974710476859 11.540635988637927
                  ltac:(split; lra) ltac:(split; lra) ltac:(split; lra)).
  split; [exact Hp1|]. split; [exact Hp2|]. split; [lra|].
  rewrite (predict_search_time_ok _ _ _ _ _ _ _ Hp1).
  rewrite (predict_search_time_ok _ _ _ _ _ _ _ Hp2).
  change (of_int 1 - 0.999)%py with (1 - 0.999).
  change (of_int 1 - 0.9995)%py with (1 - 0.9995).
  rewrite spec_search_time_congested by lra.
  rewrite spec_search_time_fallback by lra.
  split; [do 2 f_equal; lra|]. split; [do 2 f_equal; lra|]. lra.
Qed.

(** C2, amended.  With the query fixed, let two estimators predict
    occupancies [p1 <= p2].  If the capacity is at least 500, or the higher
    occupancy is at most 0.999 (no prediction in the fallback regime), or
    the lower occupancy is above 0.999 (both in it), then the search time
    for [p1] is at most the search time for [p2]. *)
Theorem search_time_monotone self1 self2 d h c la lo p1 p2 :
  predict d h c la lo self1 = (Ok p1, self1) →
  predict d h c la lo self2 = (Ok p2, self2) →
  p1 <= p2 →
  500 <= c ∨ p2 <= 0.999 ∨ 0.999 < p1 →
  ∃ t1 t2,
    predict_search_time d h c la lo self1 = (Ok t1, self1) ∧
    predict_search_time d h c la lo self2 = (Ok t2, self2) ∧
    t1 <= t2.
Proof.
  intros Hp1 Hp2 Hle Hside.
  exists (spec_search_time (1 - p1) c), (spec_search_time (1 - p2) c).
  split; [exact (predict_search_time_ok _ _ _ _ _ _ _ Hp1)|].
  split; [exact (predict_search_time_ok _ _ _ _ _ _ _ Hp2)|].
  destruct (Rlt_dec (1 - p2) 0.001) as [Hfb2|Hfb2].
  - destruct (Rlt_dec (1 - p1) 0.001) as [Hfb1|Hfb1].
    + rewrite !spec_search_time_fallback by lra. lra.
    + apply spec_search_time_below_fallback; lra.
  - apply spec_search_time_antitone; lra.
Qed.

Lemma search_time_monotone_witness :
  let self1 := constant_estimator 0.5 in
  let self2 := constant_estimator 0.97 in
  predict "SA" 18 100 48.13974710476859 11.540635988637927 self1 =
    (Ok 0.5, self1) ∧
  predict "SA" 18 100 48.13974710476859 11.540635988637927 self2 =
    (Ok 0.97, self2) ∧
  0.5 <= 0.97 ∧
  (500 <= 100 ∨ 0.97 <= 0.999 ∨ 0.999 < 0.5) ∧
  ∃ t1 t2,
    predict_search_time "SA" 18 100 48.13974710476859 11.540635988637927 self1 =
      (Ok t1, self1) ∧
    predict_search_time "SA" 18 100 48.13974710476859 11.540635988637927 self2 =
      (Ok t2, self2) ∧
    t1 <= t2.
Proof.
  cbn zeta.
  assert (Hp1 := real_constant_estimator_predict 0.5 "SA" 18 100
                  48.13974710476859 11.540635988637927
                  ltac:(split; lra) ltac:(split; lra) ltac:(split; lra)).
  assert (Hp2 := real_constant_estimator_predict 0.97 "SA" 18 100
                  48.13974710476859 11.540635988637927
                  ltac:(split; lra) ltac:(split; lra) ltac:(split; lra)).
  assert (Hle : 0.5 <= 0.97) by lra.
  assert (Hside : 500 <= 100 ∨ 0.97 <= 0.999 ∨ 0.999 < 0.5) by (right; left; lra).
  split; [exact Hp1|]. split; [exact Hp2|]. split; [exact Hle|].
  split; [exact Hside|].
  exact (search_time_monotone _ _ _ _ _ _ _ _ _ Hp1 Hp2 Hle Hside).
Defined.

(** In exact arithmetic the cyclical encoding has period 24 and lies on
    the unit circle.  The program computes in binary64, where neither
    holds exactly: see [hour_encoding_up_to_rounding]. *)
Remark real_hour_encoding :
  (∀ h : R, hour_sin_of (h + 24) = hour_sin_of h ∧
            hour_cos_of (h + 24) = hour_cos_of h) ∧
  (hour_sin_of 0, hour_cos_of 0) = (hour_sin_of 24, hour_cos_of 24) ∧
  (∀ h : R, (hour_sin_of h)² + (hour_cos_of h)² = 1).
Proof.
  assert (Hshift : ∀ h : R, 2 * PI * (h + 24) / 24 = 2 * PI * h / 24 + 2 * PI)
    by (intros h; lra).
  assert (Hperiod : ∀ h : R, hour_sin_of (h + 24) = hour_sin_of h ∧
                             hour_cos_of (h + 24) = hour_cos_of h).
  { intros h. unfold hour_sin_of, hour_cos_of. cbn.
    rewrite Hshift, sin_plus, cos_plus, sin_2PI, cos_2PI. split; ring. }
  split; [exact Hperiod|]. split.
  - destruct (Hperiod 0) as [Hs Hc].
    replace (0 + 24) with 24 in Hs, Hc by lra. congruence.
  - intros h. unfold hour_sin_of, hour_cos_of. apply sin2_cos2.
Qed.

End RealClaims.

(** ** The hour encoding in binary64 *)

Section HourEncoding.
Local Open Scope R_scope.

(** *** Two pi against its nearest double *)

Lemma machin_term_correct i : tg_alt PI_2_3_7_tg i = Q2R (machin_term i).
Proof.
  unfold tg_alt, PI_2_3_7_tg, Ratan_seq, machin_term, Q2R.
  set (k := (2 * Z.of_nat i + 1)%Z).
  assert (Hk : (0 < k)%Z) by lia.
  assert (Hn : (2 * i + 1)%nat = Z.to_nat k) by lia.
  rewrite Hn.
  assert (Hden : Zpos (Z.to_pos (k * 21 ^ k)) = (k * 21 ^ k)%Z).
  { apply Z2Pos.id. apply Z.mul_pos_pos; [exact Hk|].
    apply Z.pow_pos_nonneg; lia. }
  assert (Hpow : ∀ a : Z, IZR (a ^ k) = IZR a ^ Z.to_nat k).
  { intros a. rewrite <- (Z2Nat.id k) at 1 by lia. symmetry. apply pow_IZR. }
  assert (HINR : INR (Z.to_nat k) = IZR k).
  { rewrite INR_IZR_INZ, Z2Nat.id by lia. reflexivity. }
  assert (Hk0 : IZR k ≠ 0) by (apply not_0_IZR; lia).
  assert (H21 : IZR 21 ^ Z.to_nat k ≠ 0) by (apply pow_nonzero; lra).
  assert (H3 : 3 ^ Z.to_nat k ≠ 0) by (apply pow_nonzero; lra).
  assert (H7 : 7 ^ Z.to_nat k ≠ 0) by (apply pow_nonzero; lra).
  assert (Hsplit : IZR 21 ^ Z.to_nat k = 3 ^ Z.to_nat k * 7 ^ Z.to_nat k).
  { rewrite <- Rpow_mult_distr. f_equal. lra. }
  assert (Hsign : (-1) ^ i = if Nat.even i then 1 else -1).
  { destruct (Nat.even i) eqn:He.
    - apply Nat.even_spec in He as [j ->]. rewrite pow_1_even. reflexivity.
    - assert (Ho : Nat.odd i = true)
        by (rewrite <- Nat.negb_even, He; reflexivity).
      apply Nat.odd_spec in Ho as [j ->].
      replace (2 * j + 1)%nat with (S (2 * j)) by lia.
      rewrite pow_1_odd. reflexivity. }
  rewrite Hsign, HINR, !pow_inv.
  destruct (Nat.even i); cbn [Qnum Qden]; rewrite Hden;
    rewrite ?opp_IZR, !mult_IZR, !plus_IZR, !mult_IZR, !Hpow, Hsplit;
    field; auto.
Qed.

Lemma machin_sum_correct n :
  sum_f_R0 (tg_alt PI_2_3_7_tg) n = Q2R (machin_sum n).
Proof.
  induction n as [|n IH]; cbn [sum_f_R0 machin_sum].
  - apply machin_term_correct.
  - rewrite Q2R_plus, IH, machin_term_correct. reflexivity.
Qed.

(** Pi lies between consecutive partial sums of the series. *)
Lemma PI_bounds (N : nat) :
  4 * Q2R (machin_sum (S (2 * N))) <= PI <= 4 * Q2R (machin_sum (2 * N)).
Proof.
  pose proof (PI_2_3_7_ineq N) as [Hlo Hhi].
  rewrite machin_sum_correct in Hlo, Hhi. lra.
Qed.

Lemma Q2R_0' : Q2R 0 = 0.
Proof. unfold Q2R. cbn. lra. Qed.

Lemma Q2R_1 : Q2R 1 = 1.
Proof. unfold Q2R. cbn. lra. Qed.

Lemma Q2R_2 : Q2R 2 = 2.
Proof. unfold Q2R. cbn. lra. Qed.

Lemma Q2R_4 : Q2R 4 = 4.
Proof. unfold Q2R. cbn. lra. Qed.

Lemma Q2R_half : Q2R (1 # 2) = / 2.
Proof. unfold Q2R. cbn. lra. Qed.

Lemma Q2R_sixth : Q2R (1 # 6) = / 6.
Proof. unfold Q2R. cbn. lra. Qed.

Lemma Qlt_bool_Rlt (a b : Q) : Qle_bool b a = false → Q2R a < Q2R b.
Proof.
  intros H. apply Qlt_Rlt. apply Qnot_le_lt. intros Hle.
  apply Qle_bool_iff in Hle. congruence.
Qed.

Lemma Qle_bool_Rle (a b : Q) : Qle_bool a b = true → Q2R a <= Q2R b.
Proof. intros H. apply Qle_Rle, Qle_bool_iff, H. Qed.

Lemma PI_between : Q2R pi_lo <= PI <= Q2R pi_hi.
Proof.
  unfold pi_lo, pi_hi. rewrite !Q2R_mult, Q2R_4. exact (PI_bounds 18).
Qed.

Lemma two_pi_gap_between : Q2R gap_lo <= two_pi_gap <= Q2R gap_hi.
Proof.
  unfold two_pi_gap, gap_lo, gap_hi, float_value.
  rewrite !Q2R_minus, !Q2R_mult, Q2R_2.
  pose proof PI_between. lra.
Qed.

(** The double nearest to two pi lies below two pi, by less than
    [1e-15]. *)
Lemma two_pi_gap_small : 0 < Q2R gap_lo ∧ Q2R gap_hi <= Q2R tiny.
Proof.
  split.
  - rewrite <- Q2R_0'. apply Qlt_bool_Rlt. vm_compute. reflexivity.
  - apply Qle_bool_Rle. vm_compute. reflexivity.
Qed.

Lemma tiny_bounds : 0 < Q2R tiny <= 1.
Proof.
  split.
  - rewrite <- Q2R_0'. apply Qlt_bool_Rlt. vm_compute. reflexivity.
  - rewrite <- Q2R_1. apply Qle_bool_Rle. vm_compute. reflexivity.
Qed.

Lemma libm_error_bounds : 0 < Q2R libm_error <= 1.
Proof.
  split.
  - rewrite <- Q2R_0'. apply Qlt_bool_Rlt. vm_compute. reflexivity.
  - rewrite <- Q2R_1. apply Qle_bool_Rle. vm_compute. reflexivity.
Qed.

Lemma sin_gap_bounds :
  Q2R gap_lo * (1 - Q2R tiny * Q2R tiny * / 6) <= sin two_pi_gap ∧
  sin two_pi_gap <= Q2R gap_hi ∧
  0 < sin two_pi_gap.
Proof.
  destruct two_pi_gap_between as [Hlo Hhi].
  destruct two_pi_gap_small as [Hpos Hsmall].
  destruct tiny_bounds as [Ht Ht1].
  set (d := two_pi_gap) in *.
  assert (Hd : 0 < d) by lra.
  assert (Hdt : d <= Q2R tiny) by lra.
  pose proof (sin_lt_x d Hd) as Hup.
  pose proof (pre_sin_bound d 0 ltac:(lra) ltac:(lra)) as [Hlow _].
  assert (Happrox : sin_approx d (2 * 0 + 1) = d - d * (d * d) / 6).
  { unfold sin_approx, sin_term. cbn. field. }
  rewrite Happrox in Hlow.
  assert (Hsq : d * d <= Q2R tiny * Q2R tiny).
  { apply Rmult_le_compat; lra. }
  assert (Hone : Q2R tiny * Q2R tiny <= 1 * 1).
  { apply Rmult_le_compat; lra. }
  assert (Hlow' : d * (1 - Q2R tiny * Q2R tiny * / 6) <= sin d).
  { assert (d * (d * d) <= d * (Q2R tiny * Q2R tiny))
      by (apply Rmult_le_compat_l; lra).
    lra. }
  split; [|split].
  - apply Rle_trans with (2 := Hlow'). apply Rmult_le_compat_r; lra.
  - lra.
  - apply Rlt_le_trans with (2 := Hlow'). apply Rmult_lt_0_compat; lra.
Qed.

Lemma cos_gap_bounds :
  1 - Q2R tiny * Q2R tiny * / 2 <= cos two_pi_gap <= 1.
Proof.
  destruct two_pi_gap_between as [Hlo Hhi].
  destruct two_pi_gap_small as [Hpos Hsmall].
  destruct tiny_bounds as [Ht Ht1].
  set (d := two_pi_gap) in *.
  pose proof (pre_cos_bound d 0 ltac:(lra) ltac:(lra)) as [Hlow _].
  assert (Happrox : cos_approx d (2 * 0 + 1) = 1 - d * d / 2).
  { unfold cos_approx, cos_term. cbn. field. }
  rewrite Happrox in Hlow.
  assert (Hsq : d * d <= Q2R tiny * Q2R tiny).
  { apply Rmult_le_compat; lra. }
  pose proof (COS_bound d) as [_ Hup].
  split; lra.
Qed.

Lemma sin_two_pi_double : sin (float_value two_pi_double) = - sin two_pi_gap.
Proof.
  replace (float_value two_pi_double) with (2 * PI - two_pi_gap)
    by (unfold two_pi_gap; ring).
  rewrite sin_minus, sin_2PI, cos_2PI. ring.
Qed.

Lemma cos_two_pi_double : cos (float_value two_pi_double) = cos two_pi_gap.
Proof.
  replace (float_value two_pi_double) with (2 * PI - two_pi_gap)
    by (unfold two_pi_gap; ring).
  rewrite cos_minus, sin_2PI, cos_2PI. ring.
Qed.

(** *** Libraries accurate at the arguments of the hours 0 and 24 *)

(** The encoding of an hour is the sine and the cosine of its argument. *)
Lemma hour_encoding_of_angle {F : Type} {py : PyFloat F} {np : NumPy F} (h : F) :
  hour_sin_of h = np_sin (hour_angle h) ∧ hour_cos_of h = np_cos (hour_angle h).
Proof. split; reflexivity. Qed.

Lemma float_value_0 : float_value 0%float = 0.
Proof. rewrite <- Q2R_0'. apply Qeq_eqR. vm_compute. reflexivity. Qed.

Lemma float_value_1 : float_value 1%float = 1.
Proof. rewrite <- Q2R_1. apply Qeq_eqR. vm_compute. reflexivity. Qed.

Lemma hour_angle_0 (libm_sin libm_cos : float → float) :
  hour_angle (np := binary64_numpy libm_sin libm_cos) 0%float = 0%float.
Proof. vm_compute. reflexivity. Qed.

Lemma hour_angle_24 (libm_sin libm_cos : float → float) :
  hour_angle (np := binary64_numpy libm_sin libm_cos) 24%float = two_pi_double.
Proof. vm_compute. reflexivity. Qed.

Lemma Rabs_le_inv (x y : R) : Rabs x <= y → - y <= x <= y.
Proof. unfold Rabs. destruct (Rcase_abs x); lra. Qed.

(** The sine of the hour 0 is a zero. *)
Lemma accurate_sin_0 (s : float → float) :
  accurate_at sin s 0%float → float_value (s 0%float) = 0.
Proof.
  intros (_ & _ & H).
  rewrite float_value_0, sin_0, Rabs_R0, Rmult_0_r, Rminus_0_r in H.
  apply Rabs_le_inv in H. lra.
Qed.

Lemma accurate_cos_0 (c : float → float) :
  accurate_at cos c 0%float →
  Rabs (float_value (c 0%float) - 1) <= Q2R libm_error.
Proof.
  intros (_ & _ & H). rewrite float_value_0, cos_0, Rabs_R1, Rmult_1_r in H.
  exact H.
Qed.

(** The sine of the hour 24 is negative, near [-2.449e-16]. *)
Lemma accurate_sin_24 (s : float → float) :
  accurate_at sin s two_pi_double →
  -2.5e-16 <= float_value (s two_pi_double) <= -2.4e-16.
Proof.
  intros (_ & _ & H). rewrite sin_two_pi_double in H.
  destruct sin_gap_bounds as (Hlo & Hhi & Hpos).
  destruct libm_error_bounds as [He He1].
  rewrite Rabs_Ropp, (Rabs_pos_eq (sin two_pi_gap)) in H by lra.
  apply Rabs_le_inv in H as [H1 H2].
  assert (Hup : (1 + Q2R libm_error) * Q2R gap_hi <= 2.5e-16).
  { replace 2.5e-16 with (Q2R (25 # 10 ^ 17))
      by (unfold Q2R; cbn [Qnum Qden];
          change (Z.pos (10 ^ 17)) with (10 ^ 17)%Z; lra).
    rewrite <- Q2R_1, <- Q2R_plus, <- Q2R_mult.
    apply Qle_bool_Rle. vm_compute. reflexivity. }
  assert (Hdown : 2.4e-16 <=
                  (1 - Q2R libm_error) *
                  (Q2R gap_lo * (1 - Q2R tiny * Q2R tiny * / 6))).
  { replace 2.4e-16 with (Q2R (24 # 10 ^ 17))
      by (unfold Q2R; cbn [Qnum Qden];
          change (Z.pos (10 ^ 17)) with (10 ^ 17)%Z; lra).
    rewrite <- Q2R_sixth, <- Q2R_1, <- !Q2R_mult, <- !Q2R_minus, <- !Q2R_mult.
    apply Qle_bool_Rle. vm_compute. reflexivity. }
  assert (H3 : (1 + Q2R libm_error) * sin two_pi_gap <=
               (1 + Q2R libm_error) * Q2R gap_hi)
    by (apply Rmult_le_compat_l; lra).
  assert (H4 : (1 - Q2R libm_error) *
               (Q2R gap_lo * (1 - Q2R tiny * Q2R tiny * / 6)) <=
               (1 - Q2R libm_error) * sin two_pi_gap)
    by (apply Rmult_le_compat_l; lra).
  split; lra.
Qed.

Lemma accurate_cos_24 (c : float → float) :
  accurate_at cos c two_pi_double →
  Rabs (float_value (c two_pi_double) - 1) <=
    Q2R libm_error + Q2R tiny * Q2R tiny * / 2.
Proof.
  intros (_ & _ & H). rewrite cos_two_pi_double in H.
  destruct cos_gap_bounds as [Hlo Hhi].
  destruct libm_error_bounds as [He He1].
  destruct tiny_bounds as [Ht Ht1].
  assert (Hone : Q2R tiny * Q2R tiny <= 1 * 1)
    by (apply Rmult_le_compat; lra).
  rewrite (Rabs_pos_eq (cos two_pi_gap)) in H by lra.
  apply Rabs_le_inv in H as [H1 H2].
  assert (H3 : Q2R libm_error * cos two_pi_gap <= Q2R libm_error * 1)
    by (apply Rmult_le_compat_l; lra).
  apply Rabs_le. split; lra.
Qed.

(** Two numbers within a relative error [e] of a point of the unit
    circle have squares that sum to 1 within [e * (2 + e)]. *)
Lemma square_rounded (x x' e : R) :
  0 <= e →
  Rabs (x' - x) <= e * Rabs x →
  Rabs (x' * x' - x * x) <= e * (2 + e) * (x * x).
Proof.
  intros He H.
  replace (x' * x' - x * x) with ((x' - x) * ((x' - x) + 2 * x)) by ring.
  rewrite Rabs_mult.
  assert (Hx : x * x = Rabs x * Rabs x).
  { rewrite <- Rabs_mult. symmetry. apply Rabs_pos_eq. nra. }
  rewrite Hx.
  pose proof (Rabs_pos x) as Hx0.
  pose proof (Rabs_pos (x' - x)) as Ha0.
  assert (H2 : Rabs (x' - x + 2 * x) <= e * Rabs x + 2 * Rabs x).
  { apply Rle_trans with (1 := Rabs_triang _ _).
    rewrite (Rabs_mult 2 x), (Rabs_pos_eq 2) by lra. lra. }
  apply Rle_trans with ((e * Rabs x) * (e * Rabs x + 2 * Rabs x)); [|lra].
  apply Rmult_le_compat; try assumption. apply Rabs_pos.
Qed.

Lemma unit_circle_rounded (S C s' c' e : R) :
  0 <= e →
  S² + C² = 1 →
  Rabs (s' - S) <= e * Rabs S →
  Rabs (c' - C) <= e * Rabs C →
  Rabs (s'² + c'² - 1) <= e * (2 + e).
Proof.
  unfold Rsqr. intros He Hone Hs Hc.
  pose proof (square_rounded S s' e He Hs) as H1.
  pose proof (square_rounded C c' e He Hc) as H2.
  replace (s' * s' + c' * c' - 1)
    with ((s' * s' - S * S) + (c' * c' - C * C)) by lra.
  apply Rle_trans with (1 := Rabs_triang _ _).
  replace (e * (2 + e)) with (e * (2 + e) * (S * S + C * C))
    by (rewrite Hone; ring).
  lra.
Qed.

Lemma accurate_unit_circle (s c : float → float) (x : float) :
  accurate_at sin s x → accurate_at cos c x →
  Rabs ((float_value (s x))² + (float_value (c x))² - 1) <= 4e-15.
Proof.
  intros (_ & _ & Hs) (_ & _ & Hc).
  destruct libm_error_bounds as [He He1].
  pose proof (unit_circle_rounded _ _ _ _ (Q2R libm_error) ltac:(lra)
                (sin2_cos2 (float_value x)) Hs Hc) as H.
  apply Rle_trans with (1 := H).
  replace 4e-15 with (Q2R (4 # 10 ^ 15))
    by (unfold Q2R; cbn [Qnum Qden];
        change (Z.pos (10 ^ 15)) with (10 ^ 15)%Z; lra).
  rewrite <- Q2R_2, <- Q2R_plus, <- Q2R_mult.
  apply Qle_bool_Rle. vm_compute. reflexivity.
Qed.

(** A double is determined by its bits: equal doubles have equal
    values. *)
Lemma float_value_lt_neq (x y : float) :
  float_value x < float_value y → x ≠ y.
Proof. intros Hlt ->. lra. Qed.

(** C7, amended.  In binary64, with a sine and a cosine that are accurate
    to a relative error of [2^-50] at the arguments of the hours 0 and
    24, the two hours give pairs that agree up to rounding and are not
    equal: the sine of the hour 0 is zero, that of the hour 24 lies
    between [-2.5e-16] and [-2.4e-16], and the cosines differ by at most
    [2e-15].  For every hour at whose argument the sine and the cosine are
    that accurate, the squares of the pair sum to 1 within [4e-15]. *)
Theorem hour_encoding_up_to_rounding (libm_sin libm_cos : float → float) :
  let np := binary64_numpy libm_sin libm_cos in
  let hsin h := float_value (hour_sin_of (np:=np) h) in
  let hcos h := float_value (hour_cos_of (np:=np) h) in
  accurate_at sin libm_sin (hour_angle (np:=np) 0%float) →
  accurate_at cos libm_cos (hour_angle (np:=np) 0%float) →
  accurate_at sin libm_sin (hour_angle (np:=np) 24%float) →
  accurate_at cos libm_cos (hour_angle (np:=np) 24%float) →
  hsin 0%float = 0 ∧
  -2.5e-16 <= hsin 24%float <= -2.4e-16 ∧
  Rabs (hcos 24%float - hcos 0%float) <= 2e-15 ∧
  (hour_sin_of (np:=np) 0%float, hour_cos_of (np:=np) 0%float) ≠
    (hour_sin_of (np:=np) 24%float, hour_cos_of (np:=np) 24%float) ∧
  ∀ h : float,
    accurate_at sin libm_sin (hour_angle (np:=np) h) →
    accurate_at cos libm_cos (hour_angle (np:=np) h) →
    Rabs ((hsin h)² + (hcos h)² - 1) <= 4e-15.
Proof.
  cbn zeta. rewrite hour_angle_0, hour_angle_24.
  intros Hs0 Hc0 Hs24 Hc24.
  change (hour_sin_of (np := binary64_numpy libm_sin libm_cos) 0%float)
    with (libm_sin (hour_angle (np := binary64_numpy libm_sin libm_cos) 0%float)).
  change (hour_cos_of (np := binary64_numpy libm_sin libm_cos) 0%float)
    with (libm_cos (hour_angle (np := binary64_numpy libm_sin libm_cos) 0%float)).
  change (hour_sin_of (np := binary64_numpy libm_sin libm_cos) 24%float)
    with (libm_sin (hour_angle (np := binary64_numpy libm_sin libm_cos) 24%float)).
  change (hour_cos_of (np := binary64_numpy libm_sin libm_cos) 24%float)
    with (libm_cos (hour_angle (np := binary64_numpy libm_sin libm_cos) 24%float)).
  rewrite hour_angle_0, hour_angle_24.
  pose proof (accurate_sin_0 _ Hs0) as Hv0.
  pose proof (accurate_cos_0 _ Hc0) as Hw0.
  pose proof (accurate_sin_24 _ Hs24) as Hv24.
  pose proof (accurate_cos_24 _ Hc24) as Hw24.
  split; [exact Hv0|]. split; [exact Hv24|]. split; [|split].
  - apply Rabs_le_inv in Hw0 as [Ha Hb]. apply Rabs_le_inv in Hw24 as [Hc Hd].
    assert (Hsum : Q2R libm_error + Q2R libm_error +
                   Q2R tiny * Q2R tiny * / 2 <= 2e-15).
    { replace 2e-15 with (Q2R (2 # 10 ^ 15))
        by (unfold Q2R; cbn [Qnum Qden];
            change (Z.pos (10 ^ 15)) with (10 ^ 15)%Z; lra).
      rewrite <- Q2R_half, <- !Q2R_mult, <- !Q2R_plus.
      apply Qle_bool_Rle. vm_compute. reflexivity. }
    apply Rabs_le. split; lra.
  - intros [= Hs _]. revert Hs. apply not_eq_sym, float_value_lt_neq. lra.
  - intros h Hs Hc. exact (accurate_unit_circle _ _ _ Hs Hc).
Qed.

(** *** The table of the two values *)

Lemma table_sin_accurate_0 : accurate_at sin libm_table_sin 0%float.
Proof.
  split; [reflexivity|]. split; [reflexivity|].
  change (libm_table_sin 0%float) with 0%float.
  rewrite float_value_0, sin_0, Rminus_0_r, Rabs_R0. lra.
Qed.

Lemma table_cos_accurate_0 : accurate_at cos libm_table_cos 0%float.
Proof.
  split; [reflexivity|]. split; [reflexivity|].
  change (libm_table_cos 0%float) with 1%float.
  rewrite float_value_0, float_value_1, cos_0, Rabs_R1.
  replace (1 - 1) with 0 by ring. rewrite Rabs_R0.
  destruct libm_error_bounds. lra.
Qed.

Lemma table_sin_24_negative :
  float_value (-2.4492935982947064e-16)%float < 0.
Proof.
  rewrite <- Q2R_0'. apply Qlt_bool_Rlt. vm_compute. reflexivity.
Qed.

(** The double [-2.4492935982947064e-16] is the sine of the double
    nearest to two pi, to a relative error of [2^-50]. *)
Lemma table_sin_accurate_24 : accurate_at sin libm_table_sin two_pi_double.
Proof.
  split; [reflexivity|]. split; [reflexivity|].
  change (libm_table_sin two_pi_double) with (-2.4492935982947064e-16)%float.
  rewrite sin_two_pi_double.
  destruct sin_gap_bounds as (Hlo & Hhi & Hpos).
  destruct libm_error_bounds as [He He1].
  rewrite Rabs_Ropp, (Rabs_pos_eq (sin two_pi_gap)) by lra.
  unfold float_value at 1.
  set (qv := SF2Q (Prim2SF (-2.4492935982947064e-16)%float)).
  assert (H1 : (1 - Q2R libm_error) * Q2R gap_hi <= - Q2R qv).
  { rewrite <- Q2R_1, <- Q2R_minus, <- Q2R_mult, <- Q2R_opp.
    apply Qle_bool_Rle. vm_compute. reflexivity. }
  assert (H2 : - Q2R qv <=
               (1 + Q2R libm_error) *
               (Q2R gap_lo * (1 - Q2R tiny * Q2R tiny * / 6))).
  { rewrite <- Q2R_sixth, <- Q2R_1, <- !Q2R_mult, <- Q2R_minus, <- Q2R_plus,
      <- !Q2R_mult, <- Q2R_opp.
    apply Qle_bool_Rle. vm_compute. reflexivity. }
  assert (H3 : (1 - Q2R libm_error) * sin two_pi_gap <= - Q2R qv).
  { apply Rle_trans with (2 := H1). apply Rmult_le_compat_l; lra. }
  assert (H4 : - Q2R qv <= (1 + Q2R libm_error) * sin two_pi_gap).
  { apply Rle_trans with (1 := H2). apply Rmult_le_compat_l; lra. }
  apply Rabs_le. split; lra.
Qed.

Lemma table_cos_accurate_24 : accurate_at cos libm_table_cos two_pi_double.
Proof.
  split; [reflexivity|]. split; [reflexivity|].
  change (libm_table_cos two_pi_double) with 1%float.
  rewrite cos_two_pi_double, float_value_1.
  destruct cos_gap_bounds as [Hlo Hhi].
  destruct libm_error_bounds as [He He1].
  destruct tiny_bounds as [Ht Ht1].
  assert (Hone : Q2R tiny * Q2R tiny <= 1 * 1)
    by (apply Rmult_le_compat; lra).
  rewrite (Rabs_pos_eq (cos two_pi_gap)) by lra.
  assert (H1 : Q2R tiny * Q2R tiny * / 2 <=
               Q2R libm_error * (1 - Q2R tiny * Q2R tiny * / 2)).
  { rewrite <- Q2R_half, <- Q2R_1, <- !Q2R_mult, <- Q2R_minus, <- Q2R_mult.
    apply Qle_bool_Rle. vm_compute. reflexivity. }
  assert (H2 : Q2R libm_error * (1 - Q2R tiny * Q2R tiny * / 2) <=
               Q2R libm_error * cos two_pi_gap)
    by (apply Rmult_le_compat_l; lra).
  apply Rabs_le. split; lra.
Qed.

Lemma hour_encoding_up_to_rounding_witness :
  let np := table_numpy in
  let hsin h := float_value (hour_sin_of (np:=np) h) in
  let hcos h := float_value (hour_cos_of (np:=np) h) in
  accurate_at sin libm_table_sin (hour_angle (np:=np) 0%float) ∧
  accurate_at cos libm_table_cos (hour_angle (np:=np) 0%float) ∧
  accurate_at sin libm_table_sin (hour_angle (np:=np) 24%float) ∧
  accurate_at cos libm_table_cos (hour_angle (np:=np) 24%float) ∧
  hsin 0%float = 0 ∧
  -2.5e-16 <= hsin 24%float <= -2.4e-16 ∧
  Rabs (hcos 24%float - hcos 0%float) <= 2e-15 ∧
  (hour_sin_of (np:=np) 0%float, hour_cos_of (np:=np) 0%float) ≠
    (hour_sin_of (np:=np) 24%float, hour_cos_of (np:=np) 24%float) ∧
  ∀ h : float,
    accurate_at sin libm_table_sin (hour_angle (np:=np) h) →
    accurate_at cos libm_table_cos (hour_angle (np:=np) h) →
    Rabs ((hsin h)² + (hcos h)² - 1) <= 4e-15.
Proof.
  cbn zeta.
  assert (Hs0 : accurate_at sin libm_table_sin
                  (hour_angle (np:=table_numpy) 0%float))
    by exact table_sin_accurate_0.
  assert (Hc0 : accurate_at cos libm_table_cos
                  (hour_angle (np:=table_numpy) 0%float))
    by exact table_cos_accurate_0.
  assert (Hs24 : accurate_at sin libm_table_sin
                   (hour_angle (np:=table_numpy) 24%float))
    by exact table_sin_accurate_24.
  assert (Hc24 : accurate_at cos libm_table_cos
                   (hour_angle (np:=table_numpy) 24%float))
    by exact table_cos_accurate_24.
  split; [exact Hs0|]. split; [exact Hc0|]. split; [exact Hs24|].
  split; [exact Hc24|].
  exact (hour_encoding_up_to_rounding libm_table_sin libm_table_cos
           Hs0 Hc0 Hs24 Hc24).
Defined.

(** C7 as stated fails in binary64.  With the values that an accurate
    library returns, the hour 0 gives the pair [(0, 1)] and the hour 24
    the pair [(-2.4492935982947064e-16, 1)]: the pairs differ, and the
    squares of the second do not sum to 1. *)
Lemma hour_encoding_not_periodic :
  let np := table_numpy in
  accurate_at sin libm_table_sin (hour_angle (np:=np) 0%float) ∧
  accurate_at cos libm_table_cos (hour_angle (np:=np) 0%float) ∧
  accurate_at sin libm_table_sin (hour_angle (np:=np) 24%float) ∧
  accurate_at cos libm_table_cos (hour_angle (np:=np) 24%float) ∧
  (hour_sin_of (np:=np) 0%float, hour_cos_of (np:=np) 0%float) =
    (0%float, 1%float) ∧
  (hour_sin_of (np:=np) 24%float, hour_cos_of (np:=np) 24%float) =
    ((-2.4492935982947064e-16)%float, 1%float) ∧
  (hour_sin_of (np:=np) 0%float, hour_cos_of (np:=np) 0%float) ≠
    (hour_sin_of (np:=np) 24%float, hour_cos_of (np:=np) 24%float) ∧
  (float_value (hour_sin_of (np:=np) 24%float))² +
  (float_value (hour_cos_of (np:=np) 24%float))² ≠ 1.
Proof.
  cbn zeta.
  split; [exact table_sin_accurate_0|]. split; [exact table_cos_accurate_0|].
  split; [exact table_sin_accurate_24|].
  split; [exact table_cos_accurate_24|].
  split; [vm_compute; reflexivity|]. split; [vm_compute; reflexivity|].
  change (hour_sin_of (np:=table_numpy) 0%float) with 0%float.
  change (hour_cos_of (np:=table_numpy) 0%float) with 1%float.
  change (hour_sin_of (np:=table_numpy) 24%float)
    with (-2.4492935982947064e-16)%float.
  change (hour_cos_of (np:=table_numpy) 24%float) with 1%float.
  pose proof table_sin_24_negative as Hneg.
  split.
  - intros Hs. apply (f_equal fst) in Hs. cbn [fst] in Hs.
    rewrite <- Hs, float_value_0 in Hneg. lra.
  - rewrite float_value_1. unfold Rsqr.
    set (v := float_value (-2.4492935982947064e-16)%float) in *.
    nra.
Qed.

End HourEncoding.

(** ** Raw output, unseen labels and malformed tables on sample data *)

(** C6.  [predict] returns the raw output of the fitted ensemble: whenever
    it returns [v], [v] is the ensemble's value at the transformed row of
    the query, with nothing applied to it; and the value can lie outside
    the unit interval: the estimator trained on [sample_table] (rates 2
    and 2) by the mean learner predicts a value above 1. *)
Theorem predict_returns_raw_output :
  (∀ (F : Type) (py : PyFloat F) (np : NumPy F)
     (self : ParkingCapacityEstimator (F:=F)) d h c la lo v,
     predict d h c la lo self = (Ok v, self) →
     ∃ m f row rest,
       model self = Some m ∧
       estimators_ (step_regressor m) = Some f ∧
       ct_transform (step_preprocessor m)
         (query_frame d c la lo (hour_sin_of h) (hour_cos_of h)) =
         Ok (row :: rest) ∧
       v = f row) ∧
  (∃ (self : ParkingCapacityEstimator (F:=R)) (v : R),
     __init__ mean_fit (sample_fs sample_table) 0
       "data/synthetic_parking_occupancy.csv" = Ok self ∧
     predict "SA" 18%R 100%R 48.13974710476859%R 11.540635988637927%R self =
       (Ok v, self) ∧
     (1 < v)%R).
Proof.
  split.
  - intros F py np self d h c la lo v Hv. exact (predict_Ok_inv _ _ _ _ _ _ _ Hv).
  - exists sample_estimator. eexists. split; [apply init_sample|].
    split; [apply real_constant_estimator_predict; split; lra|].
    change (1 < (2 + (2 + 0)) / 2)%R. lra.
Qed.

Lemma predict_returns_raw_output_witness :
  let self := constant_estimator (F:=R) 0.25%R in
  predict "SA" 18%R 100%R 48.13974710476859%R 11.540635988637927%R self =
    (Ok 0.25%R, self) ∧
  ∃ m f row rest,
    model self = Some m ∧
    estimators_ (step_regressor m) = Some f ∧
    ct_transform (step_preprocessor m)
      (query_frame "SA" 100%R 48.13974710476859%R 11.540635988637927%R
         (hour_sin_of 18%R) (hour_cos_of 18%R)) = Ok (row :: rest) ∧
    0.25%R = f row.
Proof.
  cbn zeta.
  assert (Hp := real_constant_estimator_predict 0.25%R "SA" 18%R 100%R
                  48.13974710476859%R 11.540635988637927%R
                  ltac:(split; lra) ltac:(split; lra) ltac:(split; lra)).
  split; [exact Hp|].
  exact (proj1 predict_returns_raw_output R real real_numpy _ _ _ _ _ _ _ Hp).
Defined.

Lemma sample_fs_lookup {F : Type} (df : gmap string (Series (F:=F))) :
  sample_fs df !! "data/synthetic_parking_occupancy.csv" = Some df.
Proof. apply lookup_singleton_eq. Qed.

Lemma empty_table_no_record {F : Type} (k : string) (s : Series (F:=F)) :
  empty_table !! k = Some s → series_len s = 0%nat.
Proof.
  intros Hk. apply elem_of_list_to_map_2 in Hk.
  repeat (apply elem_of_cons in Hk as [[= _ ->]|Hk]; [reflexivity|]).
  apply elem_of_nil in Hk. destruct Hk.
Qed.

Lemma init_fails_on_malformed_table_witness :
  let fs := sample_fs (F:=R) empty_table in
  fs !! "data/synthetic_parking_occupancy.csv" = Some empty_table ∧
  ((∀ k s, empty_table (F:=R) !! k = Some s → series_len s = 0%nat) ∨
   (∃ k, k ∈ required_columns ∧ empty_table (F:=R) !! k = None)) ∧
  ∃ e,
    (_load_and_train mean_fit fs 0
       {| csv_path := "data/synthetic_parking_occupancy.csv";
          model := None; preprocessor := None |}).1 = Raise e ∧
    __init__ mean_fit fs 0 "data/synthetic_parking_occupancy.csv" = Raise e ∧
    error_class e = DataShapeError.
Proof.
  cbn zeta.
  assert (Hfs := sample_fs_lookup (F:=R) empty_table).
  assert (Hbad : (∀ k s, empty_table (F:=R) !! k = Some s → series_len s = 0%nat) ∨
                 (∃ k, k ∈ required_columns ∧ empty_table (F:=R) !! k = None))
    by (left; exact empty_table_no_record).
  split; [exact Hfs|]. split; [exact Hbad|].
  exact (init_fails_on_malformed_table mean_fit _ 0 _ _ Hfs Hbad).
Defined.

(** ** The scenarios in binary64

    The same definitions, evaluated in the arithmetic the interpreter
    runs: the value of [predict_search_time] is [spec_search_time] at
    [1 - p_occupied] in every arithmetic ([predict_search_time_ok]). *)

Section Binary64.
Local Open Scope float_scope.

(** Occupancy 0.9995 and capacity 100: the subtraction leaves a [p_free]
    just below 0.0005, and the search time is 252.5. *)
Example binary64_scenario_near_full :
  1 - 0.9995 = 0.00049999999999994493 ∧
  spec_search_time (1 - 0.9995) 100 = 252.5 ∧
  spec_search_time 0.0005 100 = 252.5.
Proof. repeat split; vm_compute; reflexivity. Qed.

(** The two other scenarios of the specification. *)
Example binary64_scenario_half :
  spec_search_time 0.5 100 = 4.9.
Proof. vm_compute. reflexivity. Qed.

Example binary64_scenario_congested :
  spec_search_time 0.03 100 = 52.5.
Proof. vm_compute. reflexivity. Qed.

(** The failure of monotonicity, in binary64: occupancy 0.999 against
    0.9995 at capacity 100. *)
Example binary64_not_monotone :
  (0.999 <=? 0.9995) = true ∧
  spec_search_time (1 - 0.999) 100 = 1212.4999999999989 ∧
  spec_search_time (1 - 0.9995) 100 = 252.5 ∧
  (1212.4999999999989 <=? 252.5) = false.
Proof. repeat split; vm_compute; reflexivity. Qed.

(** Order on the specification of binary64: below a positive double is
    below every positive double of larger exponent. *)
Lemma SFltb_chain (x : spec_float) m1 e1 m2 e2 :
  (e1 < e2)%Z →
  SFltb x (S754_finite false m1 e1) = true →
  SFltb x (S754_finite false m2 e2) = true.
Proof.
  intros He. unfold SFltb, SFcompare.
  destruct x as [s|s| |s m e]; cbn; try (intros H; exact H).
  destruct s; [reflexivity|].
  destruct (Z.compare_spec e e1) as [->|Hlt|Hgt].
  - intros _.
    destruct (Z.compare_spec e1 e2) as [->|Hlt'|Hgt']; [lia|reflexivity|lia].
  - intros _.
    destruct (Z.compare_spec e e2) as [->|Hlt'|Hgt']; [lia|reflexivity|lia].
  - discriminate.
Qed.

Lemma threshold_fallback_bits :
  Prim2SF lit_1e_3 = S754_finite false 4611686018427388 (-62).
Proof. vm_compute. reflexivity. Qed.

Lemma threshold_penalty_bits :
  Prim2SF lit_0_05 = S754_finite false 7205759403792794 (-57).
Proof. vm_compute. reflexivity. Qed.

(** The test of the fallback implies the test of the penalty on every
    double, the infinities and NaN included. *)
Lemma binary64_fallback_implies_penalty (x : float) :
  flt x lit_1e_3 = true → flt x lit_0_05 = true.
Proof.
  change (flt x lit_1e_3) with (x <? lit_1e_3).
  change (flt x lit_0_05) with (x <? lit_0_05).
  rewrite !ltb_spec, threshold_fallback_bits, threshold_penalty_bits.
  apply SFltb_chain. lia.
Qed.

(** X16.  Hence, in binary64 as well, on every double that passes the
    test of the fallback (negative values and minus infinity included),
    the search time is [total_capacity * 2 * 1.2 + 2.5 + 10], computed in
    binary64: the penalty is always part of it. *)
Lemma binary64_spec_search_time_fallback (p_free c : float) :
  flt p_free lit_1e_3 = true →
  spec_search_time p_free c = c * 2 * 1.2 + 2.5 + 10.
Proof.
  intros Hfb. unfold spec_search_time.
  rewrite (binary64_fallback_implies_penalty _ Hfb), Hfb. reflexivity.
Qed.

(** In binary64 the hours 0 and 24 reach the sine and the cosine with
    different arguments, 0 and the double nearest to two pi: that the two
    pairs agree is then a matter of the mathematical library. *)
Remark binary64_hour_arguments (libm_sin libm_cos : float → float) :
  hour_sin_of (np := binary64_numpy libm_sin libm_cos) 0 = libm_sin 0 ∧
  hour_sin_of (np := binary64_numpy libm_sin libm_cos) 24 =
    libm_sin 6.2831853071795862.
Proof. split; vm_compute; reflexivity. Qed.

(** The ends of the ranges of the search time are attained in binary64:
    2.5 at a predicted occupancy of [-1e300], 3.7 at occupancy 0, 36.5 at
    the largest [p_free] below 0.05, 1212.5 at [p_free = 0.001] and 26.5
    at [p_free = 0.05]. *)
Example binary64_lower_bounds_attained :
  spec_search_time (1 - (-1e300)) 100 = 2.5 ∧
  spec_search_time (1 - 0) 100 = 3.7.
Proof. split; vm_compute; reflexivity. Qed.

Example binary64_regime_bounds_attained :
  (0.049999999999999996 <? 0.05) = true ∧
  spec_search_time 0.049999999999999996 100 = 36.5 ∧
  spec_search_time 0.001 100 = 1212.5 ∧
  spec_search_time 0.05 100 = 26.5 ∧
  spec_search_time (1 - (-1e300)) 100 = 2.5.
Proof. repeat split; vm_compute; reflexivity. Qed.

(** The drop across the threshold of the fallback at capacity 499. *)
Example binary64_drop_at_499 :
  spec_search_time (1 - 0.999) 499 = 1212.4999999999989 ∧
  spec_search_time (1 - 1) 499 = 1210.0999999999999 ∧
  (1210.0999999999999 <? 1212.4999999999989) = true.
Proof. repeat split; vm_compute; reflexivity. Qed.

End Binary64.

(** ** Queries in binary64 *)

Section Binary64Queries.
Local Open Scope float_scope.

Lemma binary64_float32_bound :
  of_int float32_bound = 3.4028235677973366e+38.
Proof. vm_compute. reflexivity. Qed.







(** A query at hour 24 with a label that the table does not have, on the
    estimator trained on [midnight_table]: the row is validated with the
    sine [-2.4492935982947064e-16], and the mean 0.5 is returned. *)
Example binary64_unseen_label_query :
  query_fits (np:=table_numpy) 24 100 48 11 = true ∧
  predict (np:=table_numpy) "HOLIDAY" 24 100 48 11 midnight_estimator =
    (Ok 0.5, midnight_estimator).
Proof. split; vm_compute; reflexivity. Qed.



End Binary64Queries.

(** * Further properties of the estimator *)

(** ** Queries on a constructed estimator *)

Section Constructed.
Context {F : Type} {py : PyFloat F} {np : NumPy F}.
Variable forest_fit :
  nat → nat → Z → list (list F) → list F → result (list F → F).
Local Open Scope py_scope.

Implicit Types self : ParkingCapacityEstimator (F:=F).
Implicit Types df : gmap string (Series (F:=F)).



(** X2.  Labels that do not occur in the training column cannot be told
    apart: for two such labels and the same numbers, [predict] returns the
    same value and [predict_search_time] the same time. *)
Theorem unseen_labels_indistinguishable
    fs entropy path self df col d1 d2 h c la lo :
  __init__ forest_fit fs entropy path = Ok self →
  fs !! path = Some df →
  df !! "day_type" = Some col →
  ¬ occurs d1 col →
  ¬ occurs d2 col →
  predict d1 h c la lo self = predict d2 h c la lo self ∧
  predict_search_time d1 h c la lo self = predict_search_time d2 h c la lo self.
Proof.
  intros Hinit Hfs Hcol Hd1 Hd2.
  apply init_Ok in Hinit
    as (df' & sd & rf & f & Xt & yv & Hfs' & Hsd & _ & _ & Hm & _ & Hf & _).
  assert (df' = df) as -> by congruence.
  assert (sd = col) as -> by congruence.
  assert (Hp : predict d1 h c la lo self = predict d2 h c la lo self).
  { rewrite (predict_fitted self _ _ _ d1 h c la lo Hm Hf).
    rewrite (predict_fitted self _ _ _ d2 h c la lo Hm Hf). cbn zeta.
    rewrite (indicator_row_unseen _ _ Hd1), (indicator_row_unseen _ _ Hd2).
    reflexivity. }
  split; [exact Hp|].
  rewrite !predict_search_time_unfold, Hp. reflexivity.
Qed.

End Constructed.

(** ** What the training reads and what it hands to the learner *)

Section Training.
Context {F : Type} {py : PyFloat F} {np : NumPy F}.
Variable forest_fit :
  nat → nat → Z → list (list F) → list F → result (list F → F).

Implicit Types self : ParkingCapacityEstimator (F:=F).
Implicit Types df X : gmap string (Series (F:=F)).

(** The feature construction in terms of lookups in the table as read:
    the two assignments to [df] do not change what is read afterwards
    from the six columns. *)
Lemma load_features_lookups fs path df :
  fs !! path = Some df →
  load_features fs path =
  let! hour := getitem df "hour" in
  let! hs := series_map hour_sin_of hour in
  let! hc := series_map hour_cos_of hour in
  let! sd := getitem df "day_type" in
  let! sc := getitem df "total_capacity" in
  let! sla := getitem df "latitude" in
  let! slo := getitem df "longitude" in
  let! y := getitem df "occupancy_rate" in
  Ok (<["day_type" := sd]> (<["total_capacity" := sc]>
      (<["latitude" := sla]> (<["longitude" := slo]>
      (<["hour_sin" := hs]> (<["hour_cos" := hc]> ∅))))), y).
Proof.
  intros Hfs. unfold load_features, read_csv. rewrite Hfs.
  cbn [rbind getitems]. unfold getitem.
  destruct (df !! "hour") as [hour|] eqn:Hh; [|reflexivity]. cbn [rbind].
  destruct (series_map hour_sin_of hour) as [hs|]; [|reflexivity]. cbn [rbind].
  rewrite lookup_insert_ne, Hh by done. cbn [rbind].
  destruct (series_map hour_cos_of hour) as [hc|]; [|reflexivity]. cbn [rbind].
  repeat first [rewrite lookup_insert_eq | rewrite lookup_insert_ne by done].
  destruct (df !! "day_type") as [sd|]; [|reflexivity]. cbn [rbind].
  destruct (df !! "total_capacity") as [sc|]; [|reflexivity]. cbn [rbind].
  destruct (df !! "latitude") as [sla|]; [|reflexivity]. cbn [rbind].
  destruct (df !! "longitude") as [slo|]; [|reflexivity]. cbn [rbind].
  destruct (df !! "occupancy_rate") as [y|]; reflexivity.
Qed.

Lemma required_column_lookup df1 df2 k :
  (∀ k, k ∈ required_columns → df1 !! k = df2 !! k) →
  k ∈ required_columns →
  getitem df1 k = getitem df2 k.
Proof. intros Hagree Hk. unfold getitem. rewrite (Hagree k Hk). reflexivity. Qed.

(** X3.  The training reads six columns of the table and nothing else:
    two tables that agree on [day_type], [hour], [total_capacity],
    [latitude], [longitude] and [occupancy_rate] give the same
    construction, estimator or exception.  Further columns are ignored,
    and columns named [hour_sin] or [hour_cos] in the file are
    overwritten. *)
Theorem training_reads_required_columns fs1 fs2 entropy path df1 df2 :
  fs1 !! path = Some df1 →
  fs2 !! path = Some df2 →
  (∀ k, k ∈ required_columns → df1 !! k = df2 !! k) →
  __init__ forest_fit fs1 entropy path = __init__ forest_fit fs2 entropy path.
Proof.
  intros Hfs1 Hfs2 Hagree.
  assert (Hload : load_features fs1 path = load_features fs2 path).
  { rewrite (load_features_lookups _ _ _ Hfs1), (load_features_lookups _ _ _ Hfs2).
    assert (Hin : ∀ k, k ∈ required_columns → getitem df1 k = getitem df2 k)
      by (intros k Hk; apply required_column_lookup; assumption).
    rewrite !Hin by (unfold required_columns; set_solver).
    reflexivity. }
  unfold __init__, _load_and_train. cbn [csv_path]. rewrite Hload. reflexivity.
Qed.

(** X4.  The frame handed to the pipeline has exactly the six feature
    columns: the label, the three numbers and the two derived columns.
    The raw hour and the target are not among them, and the target handed
    over is the table's [occupancy_rate] column. *)
Theorem features_exclude_hour_and_target fs path df X y :
  fs !! path = Some df →
  load_features fs path = Ok (X, y) →
  dom X = list_to_set ["day_type"; "total_capacity"; "latitude"; "longitude";
                       "hour_sin"; "hour_cos"] ∧
  X !! "hour" = None ∧
  X !! "occupancy_rate" = None ∧
  df !! "occupancy_rate" = Some y.
Proof.
  intros Hfs Hload.
  apply load_features_Ok in Hload
    as (df' & hour & hs & hc & sd & sc & sla & slo & Hfs' & _ & _ & _
        & _ & _ & _ & _ & Hy & ->).
  assert (df' = df) as -> by congruence.
  split; [|split; [|split]].
  - rewrite !dom_insert_L, dom_empty_L. cbn. set_solver.
  - reflexivity.
  - reflexivity.
  - exact Hy.
Qed.

(** *** Exceptions of the construction *)


Lemma rmapM_total {A B} (g : A → result B) (l : list A) :
  (∀ a, a ∈ l → ∃ b, g a = Ok b) → ∃ bs, rmapM g l = Ok bs.
Proof.
  induction l as [|a l IH]; intros Hg; cbn [rmapM]; [eexists; reflexivity|].
  destruct (Hg a) as [b ->]; [apply elem_of_cons; left; reflexivity|].
  destruct IH as [bs ->].
  { intros a' Ha'. apply Hg, elem_of_cons. right. exact Ha'. }
  eexists. reflexivity.
Qed.


(** An encoder that ignores unknown values transforms every column once
    it is fitted. *)
(** An encoder that ignores unknown values returns on the column it was
    fitted on, and raises nothing but [TypeError] on another. *)
Lemma ohe_transform_ignore (col : Series (F:=F)) :
  ∃ rows,
    ohe_transform
      {| handle_unknown := hu_ignore; categories_ := Some (series_unique col) |}
      col = Ok rows.
Proof.
  unfold ohe_transform. cbn [categories_ handle_unknown].
  destruct col as [vs|vs]; cbn [series_unique]; apply rmapM_total; intros a _;
    rewrite ohe_row_ignore; eexists; reflexivity.
Qed.





(** *** Well-formed tables *)

(** X6.  The construction returns an estimator whenever the file is
    there, the table has at least one record, its [hour],
    [total_capacity], [latitude], [longitude] and [occupancy_rate] columns
    are numeric, and the learner returns on the design matrix of the table
    (the transformed feature frame) and its targets.  The fitted
    vocabulary is that of the table's [day_type] column, and both fields
    of the object hold the same fitted transformer. *)
Theorem construction_succeeds_on_well_formed_table
    fs entropy path df sd hs cs las los ys :
  fs !! path = Some df →
  df !! "day_type" = Some sd →
  series_len sd ≠ 0%nat →
  df !! "hour" = Some (Float64 hs) →
  df !! "total_capacity" = Some (Float64 cs) →
  df !! "latitude" = Some (Float64 las) →
  df !! "longitude" = Some (Float64 los) →
  df !! "occupancy_rate" = Some (Float64 ys) →
  (∀ X y Xt,
     load_features fs path = Ok (X, y) →
     ct_transform (estimator_preprocessor (Some (series_unique sd))) X = Ok Xt →
     ∃ f, forest_fit 300 12 42%Z Xt ys = Ok f) →
  ∃ self rf,
    __init__ forest_fit fs entropy path = Ok self ∧
    csv_path self = path ∧
    preprocessor self = Some (estimator_preprocessor (Some (series_unique sd))) ∧
    model self =
      Some {| step_preprocessor := estimator_preprocessor (Some (series_unique sd));
              step_regressor := rf |} ∧
    is_Some (estimators_ rf).
Proof.
  intros Hfs Hsd Hlen Hh Hc Hla Hlo Hy Hlearn.
  pose proof (load_features_lookups _ _ _ Hfs) as Hload.
  unfold getitem in Hload. rewrite Hh, Hsd, Hc, Hla, Hlo, Hy in Hload.
  cbn [rbind series_map] in Hload.
  match type of Hload with _ = Ok (?X0, _) => set (X := X0) in * end.
  assert (Hct : ∃ Xt,
    ct_transform (estimator_preprocessor (Some (series_unique sd))) X = Ok Xt).
  { unfold ct_transform, estimator_preprocessor.
    cbn [cat_column cat_encoder num_columns rmapM]. unfold getitem, X.
    repeat first [rewrite lookup_insert_eq | rewrite lookup_insert_ne by done].
    cbn [rbind to_float64].
    destruct (ohe_transform_ignore sd) as [rows ->].
    eexists. reflexivity. }
  destruct Hct as [Xt Hct].
  destruct (Hlearn _ _ _ Hload Hct) as [f Hf].
  unfold __init__, _load_and_train. cbn [csv_path model preprocessor].
  rewrite Hload.
  unfold pipeline_fit, ct_fit. cbn [step_preprocessor step_regressor cat_column
    cat_encoder num_columns].
  assert (HX : getitem X "day_type" = Ok sd).
  { unfold getitem, X. rewrite lookup_insert_eq. reflexivity. }
  rewrite HX. cbn [rbind]. unfold ohe_fit.
  destruct (Nat.eqb_spec (series_len sd) 0) as [Hz|_]; [contradiction|].
  cbn [rbind handle_unknown].
  fold (estimator_preprocessor (Some (series_unique sd))).
  rewrite Hct. cbn [rbind to_float64]. unfold rf_fit.
  cbn [n_estimators max_depth random_state default].
  change (Datatypes.id 42%Z) with 42%Z. rewrite Hf.
  cbn [rbind]. eexists _, _. repeat split. eexists. reflexivity.
Qed.

End Training.

(** ** The fitted vocabulary *)

Section UniqueSorted.
Context {A : Type} (lt : A → A → bool).
Hypothesis lt_irrefl : ∀ x, lt x x = false.
Hypothesis lt_trans : ∀ x y z, lt x y = true → lt y z = true → lt x z = true.
Hypothesis lt_total : ∀ x y, lt x y = false → lt y x = false → x = y.

Lemma insert_unique_elem_of (x y : A) (l : list A) :
  y ∈ insert_unique lt x l ↔ y = x ∨ y ∈ l.
Proof.
  split; [apply insert_unique_elem|].
  induction l as [|z l IH]; cbn.
  - intros [->|Hy]; [apply elem_of_cons; left; reflexivity|].
    apply elem_of_nil in Hy. destruct Hy.
  - destruct (lt x z) eqn:Hxz.
    + intros [->|Hy]; apply elem_of_cons; [left; reflexivity|right; exact Hy].
    + destruct (lt z x) eqn:Hzx.
      * intros [->|Hy].
        -- apply elem_of_cons. right. apply IH. left. reflexivity.
        -- apply elem_of_cons in Hy as [->|Hy]; apply elem_of_cons;
             [left; reflexivity|right; apply IH; right; exact Hy].
      * intros [->|Hy]; [|exact Hy].
        rewrite (lt_total _ _ Hxz Hzx). apply elem_of_cons. left. reflexivity.
Qed.

Lemma np_unique_elem_of (y : A) (l : list A) :
  y ∈ np_unique lt l ↔ y ∈ l.
Proof.
  induction l as [|x l IH]; cbn; [reflexivity|].
  rewrite insert_unique_elem_of, IH, elem_of_cons. reflexivity.
Qed.

Lemma insert_unique_increasing (x : A) (l : list A) :
  increasing lt l → increasing lt (insert_unique lt x l).
Proof.
  induction l as [|z l IH]; cbn.
  - intros _. split; [constructor|exact I].
  - intros [Hz Hl]. destruct (lt x z) eqn:Hxz.
    + split; [|split; assumption].
      constructor; [exact Hxz|].
      apply (Forall_impl _ _ _ Hz). intros y Hzy. exact (lt_trans _ _ _ Hxz Hzy).
    + destruct (lt z x) eqn:Hzx; [|split; assumption].
      split; [|apply IH, Hl].
      apply Forall_forall. intros y Hy.
      apply insert_unique_elem_of in Hy as [->|Hy]; [exact Hzx|].
      exact (proj1 (Forall_forall _ _) Hz y Hy).
Qed.

Lemma np_unique_increasing (l : list A) : increasing lt (np_unique lt l).
Proof.
  induction l as [|x l IH]; cbn; [exact I|].
  apply insert_unique_increasing, IH.
Qed.

Lemma increasing_NoDup (l : list A) : increasing lt l → NoDup l.
Proof.
  induction l as [|x l IH]; cbn; [constructor|].
  intros [Hx Hl]. constructor; [|apply IH, Hl].
  intros Hin. pose proof (proj1 (Forall_forall _ _) Hx x Hin) as Hxx.
  cbn beta in Hxx. rewrite lt_irrefl in Hxx. discriminate.
Qed.

End UniqueSorted.

Section StringOrder.

Lemma ascii_compare_refl (a : Ascii.ascii) : Ascii.compare a a = Eq.
Proof. unfold Ascii.compare. apply N.compare_refl. Qed.

Lemma ascii_compare_trans (a b c : Ascii.ascii) :
  Ascii.compare a b = Lt → Ascii.compare b c = Lt → Ascii.compare a c = Lt.
Proof.
  unfold Ascii.compare. rewrite !N.compare_lt_iff. apply N.lt_trans.
Qed.

Lemma string_ltb_irrefl (s : string) : String.ltb s s = false.
Proof.
  unfold String.ltb. induction s as [|a s IH]; cbn; [reflexivity|].
  rewrite ascii_compare_refl. exact IH.
Qed.

Lemma string_compare_trans (s1 s2 s3 : string) :
  String.compare s1 s2 = Lt → String.compare s2 s3 = Lt →
  String.compare s1 s3 = Lt.
Proof.
  revert s2 s3. induction s1 as [|a s1 IH]; intros [|b s2] [|c s3]; cbn;
    try congruence.
  destruct (Ascii.compare a b) eqn:Hab; try discriminate.
  - apply Ascii.compare_eq_iff in Hab as ->.
    destruct (Ascii.compare b c); try discriminate; [apply IH|reflexivity].
  - intros _. destruct (Ascii.compare b c) eqn:Hbc; try discriminate.
    + apply Ascii.compare_eq_iff in Hbc as <-. rewrite Hab. reflexivity.
    + rewrite (ascii_compare_trans _ _ _ Hab Hbc). reflexivity.
Qed.

Lemma string_ltb_trans (s1 s2 s3 : string) :
  String.ltb s1 s2 = true → String.ltb s2 s3 = true → String.ltb s1 s3 = true.
Proof.
  unfold String.ltb. intros H12 H23.
  destruct (String.compare s1 s2) eqn:E12; try discriminate.
  destruct (String.compare s2 s3) eqn:E23; try discriminate.
  rewrite (string_compare_trans _ _ _ E12 E23). reflexivity.
Qed.

Lemma string_ltb_total (s1 s2 : string) :
  String.ltb s1 s2 = false → String.ltb s2 s1 = false → s1 = s2.
Proof.
  unfold String.ltb. rewrite (String.compare_antisym s1 s2).
  destruct (String.compare s2 s1) eqn:E; cbn; try discriminate.
  intros _ _. symmetry. apply String.compare_eq_iff, E.
Qed.

End StringOrder.

Section FittedVocabulary.
Context {F : Type} {py : PyFloat F} {np : NumPy F}.
Variable forest_fit :
  nat → nat → Z → list (list F) → list F → result (list F → F).

Implicit Types self : ParkingCapacityEstimator (F:=F).
Implicit Types df : gmap string (Series (F:=F)).

Lemma string_vocabulary (xs : list string) :
  let cs := np_unique String.ltb xs in
  increasing String.ltb cs ∧ NoDup cs ∧ ∀ d, d ∈ cs ↔ d ∈ xs.
Proof.
  cbn zeta. split; [|split].
  - exact (np_unique_increasing _ string_ltb_trans string_ltb_total xs).
  - apply (increasing_NoDup String.ltb string_ltb_irrefl).
    exact (np_unique_increasing _ string_ltb_trans string_ltb_total xs).
  - intros d. exact (np_unique_elem_of _ string_ltb_total d xs).
Qed.


(** X7.  The vocabulary of a constructed estimator, for a table whose
    [day_type] column holds strings: it is increasing for the order on
    strings, has no duplicate, and its labels are exactly the labels that
    occur in the column. *)
Theorem fitted_vocabulary fs entropy path self df xs :
  __init__ forest_fit fs entropy path = Ok self →
  fs !! path = Some df →
  df !! "day_type" = Some (Object xs) →
  ∃ cs,
    preprocessor self = Some (estimator_preprocessor (Some (Object cs))) ∧
    increasing String.ltb cs ∧
    NoDup cs ∧
    ∀ d, d ∈ cs ↔ d ∈ xs.
Proof.
  intros Hinit Hfs Hcol.
  apply init_Ok in Hinit
    as (df' & sd & rf & f & Xt & yv & Hfs' & Hsd & _ & _ & _ & Hpre & _ & _).
  assert (df' = df) as -> by congruence.
  assert (sd = Object xs) as -> by congruence.
  exists (np_unique String.ltb xs). split; [exact Hpre|].
  apply string_vocabulary.
Qed.


End FittedVocabulary.

(** ** The range of the search time, in exact arithmetic *)

Section RealRange.
Local Open Scope R_scope.

Implicit Types self : ParkingCapacityEstimator (F:=R).

Lemma inv_pos a : 0 < a → 0 < 1 / a.
Proof.
  intros Ha. unfold Rdiv. rewrite Rmult_1_l. apply Rinv_0_lt_compat, Ha.
Qed.

Lemma inv_above_20 a : 0 < a → a < 0.05 → 20 < 1 / a.
Proof.
  intros Ha Hlt. replace 20 with (/ 0.05) by lra.
  unfold Rdiv. rewrite Rmult_1_l. apply Rinv_lt_contravar; [nra|exact Hlt].
Qed.

Lemma inv_le_20 a : 0.05 <= a → 1 / a <= 20.
Proof.
  intros Ha. replace 20 with (1 / 0.05) by lra. apply inv_antitone; lra.
Qed.

(** X9.  For a capacity that is not negative the search time is at least
    the fixed search time 2.5, whatever finite occupancy is predicted; and
    if the predicted occupancy is not negative, the search time is at
    least 3.7, the time of an empty facility.  The bounds are not strict:
    in binary64 both are attained ([binary64_lower_bounds_attained]). *)
Theorem search_time_lower_bound self d h c la lo p :
  predict d h c la lo self = (Ok p, self) →
  isfinite p = true →
  0 <= c →
  ∃ t,
    predict_search_time d h c la lo self = (Ok t, self) ∧
    2.5 <= t ∧
    (0 <= p → 3.7 <= t).
Proof.
  intros Hp _ Hc. exists (spec_search_time (1 - p) c).
  split; [exact (predict_search_time_ok _ _ _ _ _ _ _ Hp)|].
  destruct (Rlt_dec (1 - p) 0.001) as [Hfb|Hfb].
  - rewrite spec_search_time_fallback by exact Hfb. lra.
  - pose proof (inv_pos (1 - p) ltac:(lra)) as Hpos.
    destruct (Rlt_dec (1 - p) 0.05) as [Hcg|Hcg].
    + rewrite spec_search_time_congested by lra. lra.
    + rewrite spec_search_time_free by lra. split; [lra|].
      intros Hp0. pose proof (inv_antitone 1 (1 - p) ltac:(lra) ltac:(lra)). lra.
Qed.

Lemma search_time_lower_bound_witness :
  let self := constant_estimator (F:=R) 0.5 in
  predict "SA" 18 100 48.13974710476859 11.540635988637927 self = (Ok 0.5, self) ∧
  isfinite 0.5 = true ∧
  0 <= 100 ∧
  ∃ t,
    predict_search_time "SA" 18 100 48.13974710476859 11.540635988637927 self =
      (Ok t, self) ∧
    2.5 <= t ∧
    (0 <= 0.5 → 3.7 <= t).
Proof.
  cbn zeta.
  assert (Hp := real_constant_estimator_predict 0.5 "SA" 18 100
                  48.13974710476859 11.540635988637927
                  ltac:(split; lra) ltac:(split; lra) ltac:(split; lra)).
  assert (Hfin : isfinite 0.5 = true) by reflexivity.
  assert (Hc : 0 <= 100) by lra.
  split; [exact Hp|]. split; [exact Hfin|]. split; [exact Hc|].
  exact (search_time_lower_bound _ _ _ _ _ _ _ Hp Hfin Hc).
Defined.

(** X10.  Outside the fallback regime ([p_free >= 0.001]) the search time
    lies in one of two ranges: from 36.5 to 1212.5 when the penalty applies
    ([p_free < 0.05]), from 2.5 to 26.5 when it does not.  No value
    strictly between 26.5 and 36.5 is returned there.  The bounds are not
    strict: in binary64 they are attained
    ([binary64_regime_bounds_attained]). *)
Theorem search_time_regime_ranges self d h c la lo p :
  predict d h c la lo self = (Ok p, self) →
  0.001 <= 1 - p →
  ∃ t,
    predict_search_time d h c la lo self = (Ok t, self) ∧
    (1 - p < 0.05 → 36.5 <= t <= 1212.5) ∧
    (0.05 <= 1 - p → 2.5 <= t <= 26.5).
Proof.
  intros Hp Hfree. exists (spec_search_time (1 - p) c).
  split; [exact (predict_search_time_ok _ _ _ _ _ _ _ Hp)|]. split.
  - intros Hcg. rewrite spec_search_time_congested by lra.
    pose proof (inv_above_20 (1 - p) ltac:(lra) Hcg).
    pose proof (inv_le_1000 (1 - p) Hfree). repeat split; lra.
  - intros Hfr. rewrite spec_search_time_free by lra.
    pose proof (inv_pos (1 - p) ltac:(lra)).
    pose proof (inv_le_20 (1 - p) Hfr). repeat split; lra.
Qed.

Lemma search_time_regime_ranges_witness :
  let self := constant_estimator (F:=R) 0.97 in
  predict "SA" 18 100 48.13974710476859 11.540635988637927 self = (Ok 0.97, self) ∧
  0.001 <= 1 - 0.97 ∧
  ∃ t,
    predict_search_time "SA" 18 100 48.13974710476859 11.540635988637927 self =
      (Ok t, self) ∧
    (1 - 0.97 < 0.05 → 36.5 <= t <= 1212.5) ∧
    (0.05 <= 1 - 0.97 → 2.5 <= t <= 26.5).
Proof.
  cbn zeta.
  assert (Hp := real_constant_estimator_predict 0.97 "SA" 18 100
                  48.13974710476859 11.540635988637927
                  ltac:(split; lra) ltac:(split; lra) ltac:(split; lra)).
  assert (Hfree : 0.001 <= 1 - 0.97) by lra.
  split; [exact Hp|]. split; [exact Hfree|].
  exact (search_time_regime_ranges _ _ _ _ _ _ _ Hp Hfree).
Defined.

End RealRange.

(** ** The script *)

Section Script.
Context {F : Type} {py : PyFloat F} {np : NumPy F}.
Variable forest_fit :
  nat → nat → Z → list (list F) → list F → result (list F → F).

(** X12.  The script with coordinates that pass the validation of the
    forest (the literals of the script do) fails only in the construction:
    if the construction raises, the script ends with that exception; if it
    returns an estimator, the query does not raise and the script prints
    the search time that the estimator returns for the query of the
    script. *)
Theorem main_fails_only_at_construction fs entropy (la lo : F) :
  indicators_fit (F:=F) →
  query_fits (of_int 18) (of_int 100) la lo = true →
  match __init__ forest_fit fs entropy "data/synthetic_parking_occupancy.csv" with
  | Ok self =>
      ∃ v, main forest_fit fs entropy la lo = Ok v ∧
           predict_search_time "SA" (of_int 18) (of_int 100) la lo self =
             (Ok v, self)
  | Raise e => main forest_fit fs entropy la lo = Raise e
  end.
Proof.
  intros Hind Hq. unfold main.
  destruct (__init__ forest_fit fs entropy _) as [self|e] eqn:Hinit;
    [|reflexivity].
  cbn [rbind].
  apply init_Ok in Hinit
    as (df & sd & rf & f & Xt & yv & _ & _ & _ & _ & Hm & _ & Hf & _).
  pose proof (predict_fitted_query self _ _ _ "SA" (of_int 18) (of_int 100)
                la lo Hind Hm Hf) as Hp.
  rewrite Hq in Hp.
  rewrite (predict_search_time_ok _ _ _ _ _ _ _ Hp).
  eexists. split; reflexivity.
Qed.

End Script.

(** ** Division by zero, in binary64 *)

Section Binary64Division.
Local Open Scope float_scope.

Lemma zero_bits : Prim2SF 0 = S754_zero false.
Proof. vm_compute. reflexivity. Qed.

(** A double that equals zero is below every positive double. *)
Lemma SFeqb_zero_ltb (x : spec_float) m e :
  SFeqb x (S754_zero false) = true →
  SFltb x (S754_finite false m e) = true.
Proof.
  unfold SFeqb, SFltb, SFcompare.
  destruct x as [s|s| |s m' e']; cbn; try discriminate; try reflexivity.
  - destruct s; discriminate.
  - destruct s; discriminate.
Qed.

(** A double that fails the test of the fallback is not zero. *)
Lemma binary64_divisor_not_zero (p_free : float) :
  (p_free <? 1e-3) = false → (p_free =? 0) = false.
Proof.
  intros Hlt. destruct (p_free =? 0) eqn:Heq; [|reflexivity].
  rewrite FloatAxioms.eqb_spec, zero_bits in Heq.
  change (p_free <? 1e-3) with (p_free <? lit_1e_3) in Hlt.
  rewrite ltb_spec, threshold_fallback_bits in Hlt.
  rewrite (SFeqb_zero_ltb _ _ _ Heq) in Hlt. discriminate Hlt.
Qed.

(** X13.  In binary64, on every double (zeros, infinities and NaN
    included) the division of [predict_search_time] is never a division
    by zero: a [p_free] that equals zero takes the fallback branch.  With
    the raising division of the interpreter the body returns the value
    that the model with the total division gives. *)
Theorem binary64_no_zero_division (p_occupied total_capacity : float) :
  search_time_checked p_occupied total_capacity =
  Some (spec_search_time (1 - p_occupied) total_capacity).
Proof.
  unfold search_time_checked, spec_search_time. cbn zeta.
  change (flt (1 - p_occupied) lit_1e_3) with (1 - p_occupied <? 1e-3).
  destruct (1 - p_occupied <? 1e-3) eqn:Hfb; [reflexivity|].
  unfold float_truediv.
  rewrite (binary64_divisor_not_zero _ Hfb). reflexivity.
Qed.

Lemma binary64_spec_search_time_fallback_witness :
  flt 0 lit_1e_3 = true ∧
  spec_search_time 0 100 = 100 * 2 * 1.2 + 2.5 + 10.
Proof.
  assert (Hfb : flt 0 lit_1e_3 = true) by (vm_compute; reflexivity).
  split; [exact Hfb|].
  exact (binary64_spec_search_time_fallback 0 100 Hfb).
Defined.

End Binary64Division.

(** ** The further properties on the sample data *)

Section SampleRuns.
Local Open Scope R_scope.

Lemma sample_day_type :
  sample_table (F:=R) !! "day_type" = Some (Object ["WD"; "SA"]).
Proof. reflexivity. Qed.

Lemma not_in_sample_labels (d : string) :
  d ≠ "WD" → d ≠ "SA" → ¬ occurs (F:=R) d (Object ["WD"; "SA"]).
Proof.
  intros Hwd Hsa Hin. cbn in Hin.
  apply elem_of_cons in Hin as [->|Hin]; [congruence|].
  apply elem_of_cons in Hin as [->|Hin]; [congruence|].
  apply elem_of_nil in Hin. exact Hin.
Qed.


Lemma unseen_labels_indistinguishable_witness :
  let fs := sample_fs (F:=R) sample_table in
  __init__ mean_fit fs 0 "data/synthetic_parking_occupancy.csv" =
    Ok sample_estimator ∧
  fs !! "data/synthetic_parking_occupancy.csv" = Some sample_table ∧
  sample_table !! "day_type" = Some (Object ["WD"; "SA"]) ∧
  ¬ occurs (F:=R) "HOLIDAY" (Object ["WD"; "SA"]) ∧
  ¬ occurs (F:=R) "SU" (Object ["WD"; "SA"]) ∧
  predict "HOLIDAY" 18 100 48 11 sample_estimator =
    predict "SU" 18 100 48 11 sample_estimator ∧
  predict_search_time "HOLIDAY" 18 100 48 11 sample_estimator =
    predict_search_time "SU" 18 100 48 11 sample_estimator.
Proof.
  cbn zeta.
  assert (Hinit := init_sample (F:=R) 0).
  assert (Hfs := sample_fs_lookup (F:=R) sample_table).
  assert (Hd1 := not_in_sample_labels "HOLIDAY" ltac:(discriminate) ltac:(discriminate)).
  assert (Hd2 := not_in_sample_labels "SU" ltac:(discriminate) ltac:(discriminate)).
  split; [exact Hinit|]. split; [exact Hfs|]. split; [exact sample_day_type|].
  split; [exact Hd1|]. split; [exact Hd2|].
  exact (unseen_labels_indistinguishable mean_fit _ _ _ _ _ _ _ _ 18 100 48 11
           Hinit Hfs sample_day_type Hd1 Hd2).
Defined.

Lemma extra_column_agrees (s : Series (F:=R)) (k : string) :
  k ∈ required_columns →
  sample_table !! k = (<["hour_sin" := s]> sample_table) !! k.
Proof.
  intros Hk. rewrite lookup_insert_ne; [reflexivity|].
  intros <-. unfold required_columns in Hk.
  repeat (apply elem_of_cons in Hk as [Hk|Hk]; [discriminate Hk|]).
  apply elem_of_nil in Hk. exact Hk.
Qed.

Lemma training_reads_required_columns_witness :
  let df2 := <["hour_sin" := Object ["a"; "b"]]> (sample_table (F:=R)) in
  sample_fs sample_table !! "data/synthetic_parking_occupancy.csv" =
    Some sample_table ∧
  sample_fs df2 !! "data/synthetic_parking_occupancy.csv" = Some df2 ∧
  (∀ k, k ∈ required_columns → sample_table !! k = df2 !! k) ∧
  __init__ mean_fit (sample_fs sample_table) 0
    "data/synthetic_parking_occupancy.csv" =
  __init__ mean_fit (sample_fs df2) 0 "data/synthetic_parking_occupancy.csv".
Proof.
  cbn zeta.
  assert (Hfs1 := sample_fs_lookup (F:=R) sample_table).
  assert (Hfs2 := sample_fs_lookup (F:=R)
                    (<["hour_sin" := Object ["a"; "b"]]> sample_table)).
  assert (Hagree := extra_column_agrees (Object ["a"; "b"])).
  split; [exact Hfs1|]. split; [exact Hfs2|]. split; [exact Hagree|].
  exact (training_reads_required_columns mean_fit _ _ 0 _ _ _ Hfs1 Hfs2 Hagree).
Defined.

Lemma sample_features :
  load_features (F:=R) (sample_fs sample_table)
    "data/synthetic_parking_occupancy.csv" =
  Ok (<["day_type" := Object ["WD"; "SA"]]>
      (<["total_capacity" := Float64 [100; 100]]>
      (<["latitude" := Float64 [48; 48]]>
      (<["longitude" := Float64 [11; 11]]>
      (<["hour_sin" := Float64 [hour_sin_of 8; hour_sin_of 18]]>
      (<["hour_cos" := Float64 [hour_cos_of 8; hour_cos_of 18]]> ∅))))),
      Float64 [2; 2]).
Proof.
  rewrite (load_features_lookups _ _ _ (sample_fs_lookup sample_table)).
  reflexivity.
Qed.

Lemma features_exclude_hour_and_target_witness :
  let X : gmap string (Series (F:=R)) :=
    <["day_type" := Object ["WD"; "SA"]]>
    (<["total_capacity" := Float64 [100; 100]]>
    (<["latitude" := Float64 [48; 48]]>
    (<["longitude" := Float64 [11; 11]]>
    (<["hour_sin" := Float64 [hour_sin_of 8; hour_sin_of 18]]>
    (<["hour_cos" := Float64 [hour_cos_of 8; hour_cos_of 18]]> ∅))))) in
  sample_fs sample_table !! "data/synthetic_parking_occupancy.csv" =
    Some sample_table ∧
  load_features (sample_fs sample_table) "data/synthetic_parking_occupancy.csv" =
    Ok (X, Float64 [2; 2]) ∧
  dom X = list_to_set ["day_type"; "total_capacity"; "latitude"; "longitude";
                       "hour_sin"; "hour_cos"] ∧
  X !! "hour" = None ∧
  X !! "occupancy_rate" = None ∧
  sample_table !! "occupancy_rate" = Some (Float64 [2; 2]).
Proof.
  cbn zeta.
  assert (Hfs := sample_fs_lookup (F:=R) sample_table).
  split; [exact Hfs|]. split; [exact sample_features|].
  exact (features_exclude_hour_and_target _ _ _ _ _ Hfs sample_features).
Defined.


Lemma mean_fit_returns (X : gmap string (Series (F:=R))) (y : Series (F:=R))
    (Xt : list (list R)) :
  load_features (sample_fs sample_table)
    "data/synthetic_parking_occupancy.csv" = Ok (X, y) →
  ct_transform
    (estimator_preprocessor (Some (series_unique (Object ["WD"; "SA"])))) X =
    Ok Xt →
  ∃ f, mean_fit 300 12 42%Z Xt [2; 2] = Ok f.
Proof. intros _ _. eexists. reflexivity. Qed.

Lemma construction_succeeds_on_well_formed_table_witness :
  let fs := sample_fs (F:=R) sample_table in
  let sd := Object ["WD"; "SA"] in
  fs !! "data/synthetic_parking_occupancy.csv" = Some sample_table ∧
  sample_table !! "day_type" = Some sd ∧
  series_len sd ≠ 0%nat ∧
  sample_table !! "hour" = Some (Float64 [8; 18]) ∧
  sample_table !! "total_capacity" = Some (Float64 [100; 100]) ∧
  sample_table !! "latitude" = Some (Float64 [48; 48]) ∧
  sample_table !! "longitude" = Some (Float64 [11; 11]) ∧
  sample_table !! "occupancy_rate" = Some (Float64 [2; 2]) ∧
  (∀ X y Xt,
     load_features fs "data/synthetic_parking_occupancy.csv" = Ok (X, y) →
     ct_transform (estimator_preprocessor (Some (series_unique sd))) X = Ok Xt →
     ∃ f, mean_fit 300 12 42%Z Xt [2; 2] = Ok f) ∧
  ∃ self rf,
    __init__ mean_fit fs 0 "data/synthetic_parking_occupancy.csv" = Ok self ∧
    csv_path self = "data/synthetic_parking_occupancy.csv" ∧
    preprocessor self = Some (estimator_preprocessor (Some (series_unique sd))) ∧
    model self =
      Some {| step_preprocessor := estimator_preprocessor (Some (series_unique sd));
              step_regressor := rf |} ∧
    is_Some (estimators_ rf).
Proof.
  cbn zeta.
  assert (Hfs := sample_fs_lookup (F:=R) sample_table).
  assert (Hlen : series_len (F:=R) (Object ["WD"; "SA"]) ≠ 0%nat) by discriminate.
  assert (Hh : sample_table (F:=R) !! "hour" = Some (Float64 [8; 18])) by reflexivity.
  assert (Hc : sample_table (F:=R) !! "total_capacity" = Some (Float64 [100; 100]))
    by reflexivity.
  assert (Hla : sample_table (F:=R) !! "latitude" = Some (Float64 [48; 48]))
    by reflexivity.
  assert (Hlo : sample_table (F:=R) !! "longitude" = Some (Float64 [11; 11]))
    by reflexivity.
  assert (Hy : sample_table (F:=R) !! "occupancy_rate" = Some (Float64 [2; 2]))
    by reflexivity.
  repeat (split; [assumption || exact sample_day_type || exact mean_fit_returns|]).
  exact (construction_succeeds_on_well_formed_table mean_fit _ 0 _ _ _ _ _ _ _ _
           Hfs sample_day_type Hlen Hh Hc Hla Hlo Hy mean_fit_returns).
Defined.

Lemma fitted_vocabulary_witness :
  let fs := sample_fs (F:=R) sample_table in
  __init__ mean_fit fs 0 "data/synthetic_parking_occupancy.csv" =
    Ok sample_estimator ∧
  fs !! "data/synthetic_parking_occupancy.csv" = Some sample_table ∧
  sample_table !! "day_type" = Some (Object ["WD"; "SA"]) ∧
  ∃ cs,
    preprocessor sample_estimator =
      Some (estimator_preprocessor (Some (Object cs))) ∧
    increasing String.ltb cs ∧
    NoDup cs ∧
    ∀ d, d ∈ cs ↔ d ∈ ["WD"; "SA"].
Proof.
  cbn zeta.
  assert (Hinit := init_sample (F:=R) 0).
  assert (Hfs := sample_fs_lookup (F:=R) sample_table).
  split; [exact Hinit|]. split; [exact Hfs|]. split; [exact sample_day_type|].
  exact (fitted_vocabulary mean_fit _ _ _ _ _ _ Hinit Hfs sample_day_type).
Defined.


Lemma main_fails_only_at_construction_witness :
  let fs := sample_fs (F:=R) sample_table in
  let la := 48.13974710476859 in
  let lo := 11.540635988637927 in
  indicators_fit (F:=R) ∧
  query_fits (F:=R) 18 100 la lo = true ∧
  match __init__ mean_fit fs 0 "data/synthetic_parking_occupancy.csv" with
  | Ok self =>
      ∃ v, main mean_fit fs 0 la lo = Ok v ∧
           predict_search_time "SA" 18 100 la lo self = (Ok v, self)
  | Raise e => main mean_fit fs 0 la lo = Raise e
  end.
Proof.
  cbn zeta.
  assert (Hq := real_query_fits 18 100 48.13974710476859 11.540635988637927
                  ltac:(split; lra) ltac:(split; lra) ltac:(split; lra)).
  split; [exact real_indicators_fit|]. split; [exact Hq|].
  exact (main_fails_only_at_construction mean_fit (sample_fs sample_table) 0
           48.13974710476859 11.540635988637927 real_indicators_fit Hq).
Defined.

End SampleRuns.

(** ** The configuration of a constructed estimator *)

Section Configuration.
Context {F : Type} {py : PyFloat F} {np : NumPy F}.
Variable forest_fit :
  nat → nat → Z → list (list F) → list F → result (list F → F).

Implicit Types self : ParkingCapacityEstimator (F:=F).

(** X14.  Every estimator that the construction returns keeps the path it
    was given and holds a fitted pipeline in the configuration of the
    code: a forest of 300 trees of depth at most 12 seeded with 42, fitted,
    behind an encoder that ignores unknown labels and has a vocabulary;
    and [self.preprocessor] is the transformer inside [self.model], not a
    second, unfitted one. *)
Theorem constructed_estimator_configuration fs entropy path self :
  __init__ forest_fit fs entropy path = Ok self →
  ∃ m,
    csv_path self = path ∧
    model self = Some m ∧
    preprocessor self = Some (step_preprocessor m) ∧
    handle_unknown (cat_encoder (step_preprocessor m)) = hu_ignore ∧
    is_Some (categories_ (cat_encoder (step_preprocessor m))) ∧
    n_estimators (step_regressor m) = 300%nat ∧
    max_depth (step_regressor m) = 12%nat ∧
    random_state (step_regressor m) = Some 42%Z ∧
    is_Some (estimators_ (step_regressor m)).
Proof.
  unfold __init__, _load_and_train. cbn [csv_path model preprocessor].
  destruct (load_features fs path) as [[X y]|e]; [|discriminate].
  destruct (pipeline_fit _ _ _ X y) as [fitted|e] eqn:Hfit; [|discriminate].
  intros [= <-]. exists fitted. cbn [csv_path model preprocessor].
  unfold pipeline_fit, ct_fit, rf_fit, ohe_fit in Hfit.
  cbn [step_preprocessor step_regressor cat_column cat_encoder num_columns
       n_estimators max_depth random_state handle_unknown] in Hfit.
  destruct (getitem X "day_type") as [col|]; cbn [rbind] in Hfit;
    [|discriminate Hfit].
  destruct (Nat.eqb (series_len col) 0); cbn [rbind] in Hfit;
    [discriminate Hfit|].
  destruct (ct_transform _ X) as [Xt|]; cbn [rbind] in Hfit; [|discriminate Hfit].
  destruct (to_float64 y) as [yv|]; cbn [rbind] in Hfit; [|discriminate Hfit].
  destruct (forest_fit _ _ _ Xt yv) as [f|]; cbn [rbind] in Hfit;
    [|discriminate Hfit].
  injection Hfit as <-. cbn. repeat split; eexists; reflexivity.
Qed.

End Configuration.

(** ** The capacity bound of monotonicity is sharp *)

Section Sharpness.
Local Open Scope R_scope.

(** X15.  For every valid query with a capacity of at most 499 the search
    time drops across the fallback threshold: an estimator that predicts
    occupancy 1 answers with less than an estimator that predicts
    occupancy 0.999. *)
Theorem search_time_drops_below_500 (d : string) h c la lo :
  query_fits h c la lo = true →
  c <= 499 →
  ∃ t1 t2,
    predict_search_time d h c la lo (constant_estimator 0.999) =
      (Ok t1, constant_estimator 0.999) ∧
    predict_search_time d h c la lo (constant_estimator 1) =
      (Ok t2, constant_estimator 1) ∧
    t2 < t1.
Proof.
  intros Hq Hc.
  exists (spec_search_time (1 - 0.999) c), (spec_search_time (1 - 1) c).
  split.
  { exact (predict_search_time_ok _ _ _ _ _ _ _
             (constant_estimator_predict 0.999 d h c la lo
                real_indicators_fit Hq)). }
  split.
  { exact (predict_search_time_ok _ _ _ _ _ _ _
             (constant_estimator_predict 1 d h c la lo
                real_indicators_fit Hq)). }
  rewrite (spec_search_time_congested (1 - 0.999) c) by lra.
  rewrite (spec_search_time_fallback (1 - 1) c) by lra.
  lra.
Qed.

Lemma search_time_drops_below_500_witness :
  query_fits (F:=R) 18 499 48.13974710476859 11.540635988637927 = true ∧
  499 <= 499 ∧
  ∃ t1 t2,
    predict_search_time "SA" 18 499 48.13974710476859 11.540635988637927
      (constant_estimator 0.999) = (Ok t1, constant_estimator 0.999) ∧
    predict_search_time "SA" 18 499 48.13974710476859 11.540635988637927
      (constant_estimator 1) = (Ok t2, constant_estimator 1) ∧
    t2 < t1.
Proof.
  assert (Hq := real_query_fits 18 499 48.13974710476859 11.540635988637927
                  ltac:(split; lra) ltac:(split; lra) ltac:(split; lra)).
  assert (Hc : 499 <= 499) by lra.
  split; [exact Hq|]. split; [exact Hc|].
  exact (search_time_drops_below_500 "SA" 18 499 48.13974710476859
           11.540635988637927 Hq Hc).
Defined.

End Sharpness.

Section ConfigurationSample.

Lemma constructed_estimator_configuration_witness :
  __init__ (F:=R) mean_fit (sample_fs sample_table) 0
    "data/synthetic_parking_occupancy.csv" = Ok sample_estimator ∧
  ∃ m,
    csv_path sample_estimator = "data/synthetic_parking_occupancy.csv" ∧
    model sample_estimator = Some m ∧
    preprocessor sample_estimator = Some (step_preprocessor m) ∧
    handle_unknown (cat_encoder (step_preprocessor m)) = hu_ignore ∧
    is_Some (categories_ (cat_encoder (step_preprocessor m))) ∧
    n_estimators (step_regressor m) = 300%nat ∧
    max_depth (step_regressor m) = 12%nat ∧
    random_state (step_regressor m) = Some 42%Z ∧
    is_Some (estimators_ (step_regressor m)).
Proof.
  assert (Hinit := init_sample (F:=R) 0).
  split; [exact Hinit|].
  exact (constructed_estimator_configuration mean_fit _ _ _ _ Hinit).
Defined.

End ConfigurationSample.
